(** * The hotel application's authorization gate and feedback workflow

    A shallow embedding of [asst/auth.py] and [asst/views/feedback.py]:
    the login handler, the [require_role] decorator, and the review
    workflow that keeps its progress in module-level variables. *)

From Stdlib Require Import ZArith List String Bool Lia.
From stdpp Require Import base option strings gmap.
Import ListNotations.

Local Open Scope Z_scope.

(** ** Python values

    The values that reach the handlers: what [request.get_json()] yields
    for JSON scalars, what the form and the query string carry, and what
    the ORM hands back for a column. (JSON numbers with a fraction and
    nested arrays or objects inside the payload are left out.) *)

Module Py.

Inductive pyval :=
| PNone
| PBool (b : bool)
| PInt (z : Z)
| PStr (s : string).

(** Python's [==]. [bool] is a subclass of [int]: [True == 1]. *)
Definition py_eq (a b : pyval) : bool :=
  match a, b with
  | PNone, PNone => true
  | PBool x, PBool y => Bool.eqb x y
  | PBool x, PInt y => Z.b2z x =? y
  | PInt x, PBool y => x =? Z.b2z y
  | PInt x, PInt y => x =? y
  | PStr x, PStr y => String.eqb x y
  | _, _ => false
  end.

(** Truth value of an object, as tested by [if]. *)
Definition truthy (v : pyval) : bool :=
  match v with
  | PNone => false
  | PBool b => b
  | PInt z => negb (z =? 0)
  | PStr s => negb (String.eqb s "")
  end.

(** The ORM's [column == operand] inside [where]: the stored value is
    the operand ([None] stands for SQL NULL, which peewee compares with
    IS NULL). *)
Definition sql_eq (a b : pyval) : bool :=
  match a, b with
  | PNone, PNone => true
  | PBool x, PBool y => Bool.eqb x y
  | PInt x, PInt y => x =? y
  | PStr x, PStr y => String.eqb x y
  | _, _ => false
  end.

Inductive exn :=
| KeyError (key : string)
| NameError (name : string)
| TypeError.

Inductive result (A : Type) :=
| Ok (a : A)
| Raise (e : exn).
Arguments Ok {A} a.
Arguments Raise {A} e.

End Py.
Export Py.

(** ** What a view returns to the framework *)

Module Http.

(** [Rendered t ctx tables status] is [render_template(t, **ctx)] with
    the tables handed to the template; a view that returns the rendered
    page alone gets status 200, a pair [(page, n)] gets status [n].
    [JsonDump] is the text of [json.dumps] of a list of lists. *)
Inductive response :=
| Rendered (template : string) (ctx : list (string * pyval))
           (tables : list (list (list (string * pyval)))) (status : Z)
| Redirect (endpoint : string)
| Plain (text : string) (status : Z)
| JsonDump (payload : list (list pyval)).

Definition status_of (r : response) : Z :=
  match r with
  | Rendered _ _ _ s => s
  | Redirect _ => 302
  | Plain _ s => s
  | JsonDump _ => 200
  end.

Record request := {
  method : string;
  form : gmap string string;
  args : gmap string string;
  json : option (gmap string pyval)
}.

End Http.
Export Http.

(** ** asst/auth.py *)

Module Auth.

(** A row of the user table. [models/user.py] declares the columns
    email, password, name, address, phone_no and role; the handlers read
    the address of the row as [Email] and the customer id as [CID] (the
    package file that binds the name [User] is not part of the sources),
    so the record carries them under the names the handlers use. *)
Record User := {
  Email : string;
  password : string;
  name : string;
  address : string;
  phone_no : string;
  role : string;
  CID : pyval
}.

(** The login state the framework keeps for a client, the user table,
    and the messages flashed so far (message, category). *)
Record world := {
  users : list User;
  session_uid : option string;
  flashed : list (string * string)
}.

Definition flash (message category : string) (w : world) : world :=
  {| users := users w; session_uid := session_uid w;
     flashed := flashed w ++ [(message, category)] |}.

(** [User.select().where(User.Email == email)] *)
Definition select_by_email (tbl : list User) (email : string) : list User :=
  List.filter (fun u => String.eqb (Email u) email) tbl.

Definition user_loader (tbl : list User) (email : string) : option User :=
  match select_by_email tbl email with
  | u :: _ => Some u
  | [] => None
  end.

(** [flask_login.current_user]: the user loaded for the id kept in the
    session; [None] stands for the anonymous user. *)
Definition current_user (w : world) : option User :=
  match session_uid w with
  | Some uid => user_loader (users w) uid
  | None => None
  end.

(** [user.id = user.Email; flask_login.login_user(user)]: the session
    keeps [user.get_id()], the text of [user.id]. *)
Definition login_user (user : User) (w : world) : world :=
  {| users := users w; session_uid := Some (Email user); flashed := flashed w |}.

Definition unauth : response := Rendered "unauthorized.html" [] [] 401.

Definition login_page (status : Z) : response :=
  Rendered "login.html" [("logged_in"%string, PBool false)] [] status.

(** *** require_role *)

Inductive role_arg :=
| RoleStr (s : string)
| RoleList (l : list string).

(** The tail call a decorated view ends in. *)
Inductive call :=
| CallView (args : list pyval) (kwargs : gmap string pyval)
| CallUnauthorized.

Definition isinstance_list (roles : role_arg) : bool :=
  match roles with RoleList _ => true | RoleStr _ => false end.

(** [user.role in role], evaluated for a list. *)
Definition role_in (r : string) (roles : role_arg) : bool :=
  match roles with
  | RoleList l => existsb (String.eqb r) l
  | RoleStr _ => false
  end.

(** [user.role == role]: a string never equals a list. *)
Definition role_eq (r : string) (roles : role_arg) : bool :=
  match roles with
  | RoleStr s => String.eqb r s
  | RoleList _ => false
  end.

Definition wrapper (roles : role_arg) (kwargss : gmap string pyval)
    (user : User) (args : list pyval) (kwargs : gmap string pyval) : call :=
  let args :=
    if truthy (default (PBool false) (kwargss !! "getrole"%string))
    then [PStr (role user)] else args in
  if isinstance_list roles && role_in (role user) roles then CallView args kwargs
  else if role_eq (role user) roles then CallView args kwargs
  else CallUnauthorized.

(** [flask_login.login_required]: an anonymous client is handed to the
    unauthorized handler. *)
Definition login_required (cu : option User) (body : User -> call) : call :=
  match cu with
  | Some user => body user
  | None => CallUnauthorized
  end.

Definition require_role (roles : role_arg) (kwargss : gmap string pyval)
    (w : world) (args : list pyval) (kwargs : gmap string pyval) : call :=
  login_required (current_user w)
    (fun user => wrapper roles kwargss user args kwargs).

(** Running the decorated view: the wrapped function on the arguments the
    wrapper chose, or [login_manager.unauthorized()], which calls [unauth]. *)
Definition dispatch {R : Type} (func : list pyval -> gmap string pyval -> R)
    (c : call) : R + response :=
  match c with
  | CallView args kwargs => inl (func args kwargs)
  | CallUnauthorized => inr unauth
  end.

(** The set of role tags a decorator argument permits. *)
Definition permitted (roles : role_arg) : list string :=
  match roles with
  | RoleStr s => [s]
  | RoleList l => l
  end.

(** *** login *)

Section Login.

(** [werkzeug.security.check_password_hash(pwhash, password)] and the
    text [str(e)] of a caught exception. *)
Variable check_password_hash : string -> string -> bool.
Variable str_exn : exn -> string.

Definition registration_failed (e : exn) (w : world) : response * world :=
  (login_page 401,
   flash ("Registration failed: " ++ str_exn e)%string "danger" w).

Definition unable_to_login (email : string) : world -> world :=
  flash ("Unable to login user " ++ email)%string "danger".

Definition login (rq : request) (w : world) : response * world :=
  if bool_decide (is_Some (current_user w)) then (Redirect "index", w)
  else if String.eqb (method rq) "GET" then (login_page 200, w)
  else
    match form rq !! "email"%string with
    | None => registration_failed (KeyError "email") w
    | Some email =>
        match select_by_email (users w) email with
        | [] => (login_page 200, unable_to_login email w)
        | user :: _ =>
            match form rq !! "pw"%string with
            | None => registration_failed (KeyError "pw") w
            | Some pw =>
                if check_password_hash (password user) pw
                then (Redirect "index", login_user user w)
                else (login_page 401, unable_to_login email w)
            end
        end
    end.

End Login.

(** *** require_login and logout *)

(** [require_login] puts [flask_login.login_required] around the view
    and passes the arguments on as they are. *)
Definition require_login (w : world) (args : list pyval)
    (kwargs : gmap string pyval) : call :=
  login_required (current_user w) (fun _ => CallView args kwargs).

(** [flask_login.logout_user()] drops the user id from the session. *)
Definition logout_user (w : world) : world :=
  {| users := users w; session_uid := None; flashed := flashed w |}.

Definition logout (w : world) : response * world :=
  (login_page 200, flash "Successfully logged out" "success" (logout_user w)).

End Auth.

(** ** asst/models/user.py *)

Module UserModel.

Import Auth.

Inductive user_exn :=
| UNameError (name : string)
| IntegrityError
| ValueError (message : string).

(** A bare name in the body of [create_user] is looked up among the
    parameters; the names the module binds ([CharField], [IntegrityError],
    [BaseModel], [UserMixin], [generate_password_hash], [User]) and the
    builtins hold none of the names the body reads as values, and the
    class attributes are not in scope inside a method. *)
Definition lookup_name (params : gmap string string) (name : string)
    : user_exn + string :=
  match params !! name with
  | Some v => inr v
  | None => inl (UNameError name)
  end.

Section CreateUser.

(** [werkzeug.security.generate_password_hash], and peewee's
    [cls.create] with the columns as keywords, which inserts the row or
    raises. *)
Variable generate_password_hash : string -> string.
Variable create : gmap string string -> list User -> option user_exn * list User.

(** The keyword arguments of [cls.create(...)], evaluated left to right;
    the first name that is not bound ends the evaluation. *)
Fixpoint eval_columns (params : gmap string string)
    (columns : list (string * (string * (string -> string))))
    (done : gmap string string) : user_exn + gmap string string :=
  match columns with
  | [] => inr done
  | (column, (name, f)) :: rest =>
      match lookup_name params name with
      | inl e => inl e
      | inr v => eval_columns params rest (<[column := f v]> done)
      end
  end.

Definition create_user (email password_ name_ role_ : string) (tbl : list User)
    : option user_exn * list User :=
  let params : gmap string string :=
    <["email"%string := email]> (<["password"%string := password_]>
      (<["name"%string := name_]> (<["role"%string := role_]> ∅))) in
  match eval_columns params
          [ ("email", ("email", id)); ("password", ("password", generate_password_hash));
            ("name", ("name", id)); ("phone_no", ("phone_no", id));
            ("address", ("address", id)); ("role", ("role", id)) ]%string ∅ with
  | inl e => (Some e, tbl)
  | inr columns =>
      match create columns tbl with
      | (Some IntegrityError, tbl') => (Some (ValueError "User already exists"), tbl')
      | outcome => outcome
      end
  end.

End CreateUser.

(** *** The class as [auth.py] addresses it

    [auth.py] reads the attribute [Email] of the class in its two
    queries. A model class answers to the columns it declares; any other
    name is an AttributeError. The class of this file declares [email],
    not [Email]. (In the rows, the field [Email] of the record stands for
    the address column.) *)

Definition user_columns : list string :=
  ["email"; "password"; "name"; "address"; "phone_no"; "role"]%string.

Inductive attribute_error :=
| AttributeError (cls attr : string).

(** The text of the exception, as [str(e)] gives it. *)
Definition str_attribute_error (e : attribute_error) : string :=
  match e with
  | AttributeError cls attr =>
      ("type object '" ++ cls ++ "' has no attribute '" ++ attr ++ "'")%string
  end.

Definition class_attribute (columns : list string) (attr : string)
    : attribute_error + unit :=
  if existsb (String.eqb attr) columns then inr tt
  else inl (AttributeError "User" attr).

Section OnClass.

(** The columns of the class bound to the name [User]. *)
Variable columns : list string.
Variable check_password_hash : string -> string -> bool.
Variable str_exn : exn -> string.

(** [User.select().where(User.Email == email)]: the attribute of the
    class is read before any row is. *)
Definition select_where_Email (tbl : list User) (email : string)
    : attribute_error + list User :=
  match class_attribute columns "Email" with
  | inl e => inl e
  | inr _ => inr (select_by_email tbl email)
  end.

(** [user_loader] with its [try]: an exception of the lookup is printed
    and swallowed, and the function returns [None]. *)
Definition user_loader_on (tbl : list User) (email : string) : option User :=
  match select_where_Email tbl email with
  | inr (u :: _) => Some u
  | inr [] => None
  | inl _ => None
  end.

Definition current_user_on (w : world) : option User :=
  match session_uid w with
  | Some uid => user_loader_on (users w) uid
  | None => None
  end.

(** [login] with the lookup of line 107 inside its [try]: an exception
    there is flashed as a failed registration and answered with 401. *)
Definition login_on (rq : request) (w : world) : response * world :=
  if bool_decide (is_Some (current_user_on w)) then (Redirect "index", w)
  else if String.eqb (method rq) "GET" then (login_page 200, w)
  else
    match form rq !! "email"%string with
    | None => registration_failed str_exn (KeyError "email") w
    | Some email =>
        match select_where_Email (users w) email with
        | inl e =>
            (login_page 401,
             flash ("Registration failed: " ++ str_attribute_error e)%string
                   "danger" w)
        | inr [] => (login_page 200, unable_to_login email w)
        | inr (user :: _) =>
            match form rq !! "pw"%string with
            | None => registration_failed str_exn (KeyError "pw") w
            | Some pw =>
                if check_password_hash (password user) pw
                then (Redirect "index", login_user user w)
                else (login_page 401, unable_to_login email w)
            end
        end
    end.

End OnClass.

End UserModel.

(** ** asst/views/feedback.py *)

Module Feedback.

Import Auth.

(** *** Tables *)

Record Reservation := {
  res_InvoiceNo : pyval;
  res_ResDate : pyval;
  res_OutDate : pyval;
  res_InDate : pyval;
  res_Room_no : pyval;
  res_HotelID : pyval;
  res_CNumber : pyval;
  res_TotalAmt : pyval;
  res_CID : pyval
}.

Record Room := {
  room_HotelID : pyval;
  room_Room_no : pyval;
  room_Type : pyval
}.

Record Inc_Breakfast := {
  bf_InvoiceNo : pyval;
  bf_BType : pyval;
  bf_HotelID : pyval
}.

Record Cont_Service := {
  cs_InvoiceNo : pyval;
  cs_sType : pyval;
  cs_HotelID : pyval
}.

Record writes_Review := {
  ReviewID : pyval;
  Rating : pyval;
  TextComment : pyval;
  rev_CID : pyval;
  rev_InvoiceNo : pyval
}.

(** The three link tables: the review id, then the rated entity. *)
Record RoomReview_evaluates := {
  rr_ReviewID : pyval;
  rr_Room_no : pyval;
  rr_HotelID : pyval
}.

Record BreakfastReview_asseses := {
  br_ReviewID : pyval;
  br_BType : pyval;
  br_HotelID : pyval
}.

Record ServiceReview_rates := {
  sr_ReviewID : pyval;
  sr_sType : pyval;
  sr_HotelID : pyval
}.

(** Rows are kept in insertion order, and a select yields the matching
    rows in that order. *)
Record database := {
  reservations : list Reservation;
  rooms : list Room;
  inc_breakfast : list Inc_Breakfast;
  cont_service : list Cont_Service;
  reviews : list writes_Review;
  room_reviews : list RoomReview_evaluates;
  breakfast_reviews : list BreakfastReview_asseses;
  service_reviews : list ServiceReview_rates
}.

(** *** The module-level variables

    [inv_no] to [ReviewIDtest] are bound when the module is loaded;
    [rtype], [bftype], [stype] and [rate] are only declared [global]
    inside the handlers, so they are unbound ([None]) until the rating
    handler assigns them. (The module also binds [choice], [servtype],
    [breakftype] and [rootype], which no handler reads or assigns: the
    [servtype] of the rating handler is a local.) *)
Record globals := {
  inv_no : pyval;
  rrate : pyval;
  bfrate : pyval;
  srate : pyval;
  ReviewType : pyval;
  rno : pyval;
  hid : pyval;
  ReviewIDtest : pyval;
  rtype : option pyval;
  bftype : option pyval;
  stype : option pyval;
  rate : option pyval
}.

Definition module_globals : globals := {|
  inv_no := PStr "1";
  rrate := PStr "-1";
  bfrate := PStr "-1";
  srate := PStr "-1";
  ReviewType := PStr "-1";
  rno := PStr "1";
  hid := PStr "0";
  ReviewIDtest := PStr "0";
  rtype := None;
  bftype := None;
  stype := None;
  rate := None
|}.

Definition set_inv_no (v : pyval) (g : globals) : globals :=
  {| inv_no := v; rrate := rrate g; bfrate := bfrate g; srate := srate g;
     ReviewType := ReviewType g; rno := rno g; hid := hid g;
     ReviewIDtest := ReviewIDtest g; rtype := rtype g; bftype := bftype g;
     stype := stype g; rate := rate g |}.

Definition set_rrate (v : pyval) (g : globals) : globals :=
  {| inv_no := inv_no g; rrate := v; bfrate := bfrate g; srate := srate g;
     ReviewType := ReviewType g; rno := rno g; hid := hid g;
     ReviewIDtest := ReviewIDtest g; rtype := rtype g; bftype := bftype g;
     stype := stype g; rate := rate g |}.

Definition set_bfrate (v : pyval) (g : globals) : globals :=
  {| inv_no := inv_no g; rrate := rrate g; bfrate := v; srate := srate g;
     ReviewType := ReviewType g; rno := rno g; hid := hid g;
     ReviewIDtest := ReviewIDtest g; rtype := rtype g; bftype := bftype g;
     stype := stype g; rate := rate g |}.

Definition set_srate (v : pyval) (g : globals) : globals :=
  {| inv_no := inv_no g; rrate := rrate g; bfrate := bfrate g; srate := v;
     ReviewType := ReviewType g; rno := rno g; hid := hid g;
     ReviewIDtest := ReviewIDtest g; rtype := rtype g; bftype := bftype g;
     stype := stype g; rate := rate g |}.

Definition set_ReviewType (v : pyval) (g : globals) : globals :=
  {| inv_no := inv_no g; rrate := rrate g; bfrate := bfrate g; srate := srate g;
     ReviewType := v; rno := rno g; hid := hid g;
     ReviewIDtest := ReviewIDtest g; rtype := rtype g; bftype := bftype g;
     stype := stype g; rate := rate g |}.

Definition set_rno (v : pyval) (g : globals) : globals :=
  {| inv_no := inv_no g; rrate := rrate g; bfrate := bfrate g; srate := srate g;
     ReviewType := ReviewType g; rno := v; hid := hid g;
     ReviewIDtest := ReviewIDtest g; rtype := rtype g; bftype := bftype g;
     stype := stype g; rate := rate g |}.

Definition set_hid (v : pyval) (g : globals) : globals :=
  {| inv_no := inv_no g; rrate := rrate g; bfrate := bfrate g; srate := srate g;
     ReviewType := ReviewType g; rno := rno g; hid := v;
     ReviewIDtest := ReviewIDtest g; rtype := rtype g; bftype := bftype g;
     stype := stype g; rate := rate g |}.

Definition set_ReviewIDtest (v : pyval) (g : globals) : globals :=
  {| inv_no := inv_no g; rrate := rrate g; bfrate := bfrate g; srate := srate g;
     ReviewType := ReviewType g; rno := rno g; hid := hid g;
     ReviewIDtest := v; rtype := rtype g; bftype := bftype g;
     stype := stype g; rate := rate g |}.

Definition set_rtype (v : pyval) (g : globals) : globals :=
  {| inv_no := inv_no g; rrate := rrate g; bfrate := bfrate g; srate := srate g;
     ReviewType := ReviewType g; rno := rno g; hid := hid g;
     ReviewIDtest := ReviewIDtest g; rtype := Some v; bftype := bftype g;
     stype := stype g; rate := rate g |}.

Definition set_bftype (v : pyval) (g : globals) : globals :=
  {| inv_no := inv_no g; rrate := rrate g; bfrate := bfrate g; srate := srate g;
     ReviewType := ReviewType g; rno := rno g; hid := hid g;
     ReviewIDtest := ReviewIDtest g; rtype := rtype g; bftype := Some v;
     stype := stype g; rate := rate g |}.

Definition set_stype (v : pyval) (g : globals) : globals :=
  {| inv_no := inv_no g; rrate := rrate g; bfrate := bfrate g; srate := srate g;
     ReviewType := ReviewType g; rno := rno g; hid := hid g;
     ReviewIDtest := ReviewIDtest g; rtype := rtype g; bftype := bftype g;
     stype := Some v; rate := rate g |}.

Definition set_rate (v : pyval) (g : globals) : globals :=
  {| inv_no := inv_no g; rrate := rrate g; bfrate := bfrate g; srate := srate g;
     ReviewType := ReviewType g; rno := rno g; hid := hid g;
     ReviewIDtest := ReviewIDtest g; rtype := rtype g; bftype := bftype g;
     stype := stype g; rate := Some v |}.

(** *** The state a handler runs in, and the handler monad *)

Record state := {
  vars : globals;
  db : database;
  flashes : list (string * string)
}.

Definition M (A : Type) : Type := state -> result A * state.

Definition ret {A} (a : A) : M A := fun s => (Ok a, s).

Definition bind {A B} (m : M A) (k : A -> M B) : M B :=
  fun s =>
    match m s with
    | (Ok a, s') => k a s'
    | (Raise e, s') => (Raise e, s')
    end.

Definition raise {A} (e : exn) : M A := fun s => (Raise e, s).

(** [try: m  except: h]; what [m] did to the state before it raised stays. *)
Definition try_except {A} (m : M A) (h : exn -> M A) : M A :=
  fun s =>
    match m s with
    | (Ok a, s') => (Ok a, s')
    | (Raise e, s') => h e s'
    end.

Declare Scope handler_scope.
Delimit Scope handler_scope with handler.
Notation "x <~ m ;; k" := (bind m (fun x => k))
  (at level 100, m at next level, right associativity) : handler_scope.
Notation "m ;;; k" := (bind m (fun _ => k))
  (at level 100, right associativity) : handler_scope.
Local Open Scope handler_scope.

Definition get_vars : M globals := fun s => (Ok (vars s), s).

Definition assign (f : globals -> globals) : M unit :=
  fun s => (Ok tt, {| vars := f (vars s); db := db s; flashes := flashes s |}).

Definition get_db : M database := fun s => (Ok (db s), s).

Definition put_db (d : database) : M unit :=
  fun s => (Ok tt, {| vars := vars s; db := d; flashes := flashes s |}).

Definition flash (message category : string) : M unit :=
  fun s => (Ok tt, {| vars := vars s; db := db s;
                      flashes := flashes s ++ [(message, category)] |}).

(** Reading a global that may be unbound. *)
Definition read_global (field : globals -> option pyval) (name : string) : M pyval :=
  g <~ get_vars ;;
  match field g with
  | Some v => ret v
  | None => raise (NameError name)
  end.

(** [d[key]] on a dictionary. *)
Definition getitem {V} (d : gmap string V) (key : string) : M V :=
  match d !! key with
  | Some v => ret v
  | None => raise (KeyError key)
  end.

(** A [for] loop over the rows of a select; the body may change the
    loop's local variables [B] or leave the view with a response. *)
Fixpoint for_loop {A B} (rows : list A) (body : A -> B -> M (response + B))
    (locals : B) : M (response + B) :=
  match rows with
  | [] => ret (inr locals)
  | x :: rest =>
      r <~ body x locals ;;
      match r with
      | inl resp => ret (inl resp)
      | inr locals' => for_loop rest body locals'
      end
  end.

(** A loop whose body has no [return]. *)
Fixpoint for_each {A B} (rows : list A) (body : A -> B -> M B) (locals : B) : M B :=
  match rows with
  | [] => ret locals
  | x :: rest => locals' <~ body x locals ;; for_each rest body locals'
  end.

(** *** Queries *)

Definition select_reservations (cid inv : pyval) (d : database) : list Reservation :=
  List.filter (fun r => sql_eq (res_CID r) cid && sql_eq (res_InvoiceNo r) inv)
    (reservations d).

Definition select_reservations_of (cid : pyval) (d : database) : list Reservation :=
  List.filter (fun r => sql_eq (res_CID r) cid) (reservations d).

Definition select_rooms (hotel room_no : pyval) (d : database) : list Room :=
  List.filter (fun rm => sql_eq (room_HotelID rm) hotel && sql_eq (room_Room_no rm) room_no)
    (rooms d).

Definition select_rooms_numbered (room_no : pyval) (d : database) : list Room :=
  List.filter (fun rm => sql_eq (room_Room_no rm) room_no) (rooms d).

Definition select_breakfast (inv : pyval) (d : database) : list Inc_Breakfast :=
  List.filter (fun b => sql_eq (bf_InvoiceNo b) inv) (inc_breakfast d).

Definition select_service (inv : pyval) (d : database) : list Cont_Service :=
  List.filter (fun s => sql_eq (cs_InvoiceNo s) inv) (cont_service d).

Definition select_reviews (rating text inv : pyval) (d : database) : list writes_Review :=
  List.filter
    (fun t => sql_eq (Rating t) rating && sql_eq (TextComment t) text
              && sql_eq (rev_InvoiceNo t) inv)
    (reviews d).

(** *** Review recording *)

Definition id_value (v : pyval) : Z :=
  match v with PInt z => z | _ => 0 end.

Definition largest_id (tbl : list writes_Review) : Z :=
  fold_right (fun r m => Z.max (id_value (ReviewID r)) m) 0 tbl.

Definition with_reviews (d : database) (l : list writes_Review) : database :=
  {| reservations := reservations d; rooms := rooms d;
     inc_breakfast := inc_breakfast d; cont_service := cont_service d;
     reviews := l; room_reviews := room_reviews d;
     breakfast_reviews := breakfast_reviews d;
     service_reviews := service_reviews d |}.

Definition with_room_reviews (d : database) (l : list RoomReview_evaluates) : database :=
  {| reservations := reservations d; rooms := rooms d;
     inc_breakfast := inc_breakfast d; cont_service := cont_service d;
     reviews := reviews d; room_reviews := l;
     breakfast_reviews := breakfast_reviews d;
     service_reviews := service_reviews d |}.

Definition with_breakfast_reviews (d : database) (l : list BreakfastReview_asseses) : database :=
  {| reservations := reservations d; rooms := rooms d;
     inc_breakfast := inc_breakfast d; cont_service := cont_service d;
     reviews := reviews d; room_reviews := room_reviews d;
     breakfast_reviews := l;
     service_reviews := service_reviews d |}.

Definition with_service_reviews (d : database) (l : list ServiceReview_rates) : database :=
  {| reservations := reservations d; rooms := rooms d;
     inc_breakfast := inc_breakfast d; cont_service := cont_service d;
     reviews := reviews d; room_reviews := room_reviews d;
     breakfast_reviews := breakfast_reviews d;
     service_reviews := l |}.

(** Modelled from the spec: the model classes of [asst/models/review.py]
    and of the three link tables are missing from the sources.
    [create_review(rating, text, customer_id, invoice_no)] inserts a new
    Review row, whose review id is assigned on insert (here: one more
    than the largest id in the table). *)
Definition create_review (rating text cid inv : pyval) : M unit :=
  d <~ get_db ;;
  put_db (with_reviews d
    (reviews d ++ [ {| ReviewID := PInt (largest_id (reviews d) + 1);
                       Rating := rating; TextComment := text;
                       rev_CID := cid; rev_InvoiceNo := inv |} ])).

(** Modelled from the spec: [create_rmreview(review_id, room, hotel_id)]
    inserts the room link row (model class missing from the sources). *)
Definition create_rmreview (review_id room_no hotel : pyval) : M unit :=
  d <~ get_db ;;
  put_db (with_room_reviews d
    (room_reviews d ++ [ {| rr_ReviewID := review_id; rr_Room_no := room_no;
                            rr_HotelID := hotel |} ])).

(** Modelled from the spec: [create_brkreview(review_id, type, hotel_id)]
    inserts the breakfast link row (model class missing from the sources). *)
Definition create_brkreview (review_id btype hotel : pyval) : M unit :=
  d <~ get_db ;;
  put_db (with_breakfast_reviews d
    (breakfast_reviews d ++ [ {| br_ReviewID := review_id; br_BType := btype;
                                 br_HotelID := hotel |} ])).

(** Modelled from the spec: [create_servreview(review_id, type, hotel_id)]
    inserts the service link row (model class missing from the sources). *)
Definition create_servreview (review_id stype_ hotel : pyval) : M unit :=
  d <~ get_db ;;
  put_db (with_service_reviews d
    (service_reviews d ++ [ {| sr_ReviewID := review_id; sr_sType := stype_;
                               sr_HotelID := hotel |} ])).

(** *** Pages *)

Definition page_ctx (role : string) : list (string * pyval) :=
  [("logged_in"%string, PBool true); ("role"%string, PStr role)].

Definition index_page (role : string) : response :=
  Rendered "feedback/index.html" (page_ctx role) [] 200.

Definition success_page (role : string) : response :=
  Rendered "feedback/success.html" (page_ctx role) [] 200.

Definition error_500 : response := Plain "Error" 500.

Definition processing_error : string :=
  "There was an error processing your request. Please try again".

Definition not_ordered_error : string :=
  "error, please review only for things that were actually ordered.".

(** *** feedback and pick_res *)

Definition feedback (role : string) : M response := ret (index_page role).

Definition pick_res (role : string) (user : User) (rq : request) : M response :=
  let cid := CID user in
  let INV_NO := match args rq !! "id"%string with
                | Some s => PStr s
                | None => PNone
                end in
  assign (set_inv_no INV_NO) ;;;
  g <~ get_vars ;;
  d <~ get_db ;;
  reserv <~ for_each (select_reservations cid (inv_no g) d)
    (fun r reserv =>
       assign (set_rno (res_Room_no r)) ;;;
       assign (set_hid (res_HotelID r)) ;;;
       ret (reserv ++ [[("inv"%string, res_InvoiceNo r); ("ordered"%string, res_ResDate r);
                        ("out_date"%string, res_OutDate r); ("in_date"%string, res_InDate r);
                        ("room_no"%string, res_Room_no r); ("hotel_id"%string, res_HotelID r);
                        ("cnumber"%string, res_CNumber r); ("totalamt"%string, res_TotalAmt r);
                        ("cid"%string, res_CID r)]]))
    [] ;;
  reserv2 <~ for_each (select_service (inv_no g) d)
    (fun s reserv2 =>
       ret (reserv2 ++ [[("serv"%string, cs_sType s); ("inv"%string, cs_InvoiceNo s);
                         ("hotel_id"%string, cs_HotelID s)]]))
    [] ;;
  reserv3 <~ for_each (select_breakfast (inv_no g) d)
    (fun bf reserv3 =>
       ret (reserv3 ++ [[("inv"%string, bf_InvoiceNo bf); ("brktype"%string, bf_BType bf);
                         ("hotel_id"%string, bf_HotelID bf)]]))
    [] ;;
  ret (Rendered "feedback/make_rev.html" (page_ctx role) [reserv; reserv2; reserv3] 200).

(** *** rating *)

Definition get_json (rq : request) : M (gmap string pyval) :=
  match json rq with
  | Some data => ret data
  | None => raise TypeError
  end.

Definition get_rating_and_global (role : string) (rq : request) : M response :=
  try_except
    (data <~ get_json rq ;;
     rate <~ getitem data "radioValue" ;;
     assign (set_rate rate) ;;;
     RevType <~ getitem data "ReviewType" ;;
     (if py_eq RevType (PInt 1) then assign (set_rrate rate)
      else if py_eq RevType (PInt 2) then assign (set_bfrate rate)
      else if py_eq RevType (PInt 3) then assign (set_srate rate)
      else ret tt) ;;;
     roomtype <~ getitem data "rootype" ;;
     breaktype <~ getitem data "breakftype" ;;
     servtype <~ getitem data "servtype" ;;
     assign (set_ReviewType RevType) ;;;
     assign (set_rtype roomtype) ;;;
     assign (set_bftype breaktype) ;;;
     assign (set_stype servtype) ;;;
     ret (JsonDump [[RevType]]))
    (fun _ => ret error_500).

(** *** load_Res *)

Definition get_reserv (role : string) (user : User) (rq : request) : M response :=
  try_except
    (data <~ get_json rq ;;
     RevType <~ getitem data "RevType" ;;
     let cid := CID user in
     d <~ get_db ;;
     out <~ for_each (select_reservations_of cid d)
       (fun r (loc : pyval * list (list pyval)) =>
          rmtype <~ for_each (select_rooms_numbered (res_Room_no r) d)
                      (fun rt _ => ret (room_Type rt)) (fst loc) ;;
          ret (rmtype, snd loc ++ [[res_HotelID r; rmtype; res_Room_no r; res_InvoiceNo r]]))
       (PStr "none", []) ;;
     ret (JsonDump (snd out)))
    (fun _ => ret error_500).

(** *** success *)

(** The innermost [try] of [rreview]: when the item matches, the comment
    is read from the form into [Text] and [SCounter] goes up; an
    exception anywhere in it skips the item ([except: continue]). The
    locals are the pair [(Text, SCounter)]. *)
Definition check_item (matches : M bool) (field : string) (rq : request)
    (loc : pyval * Z) : M (response + pyval * Z) :=
  try_except
    (hit <~ matches ;;
     if hit then
       Text <~ getitem (form rq) field ;;
       ret (inr (PStr Text, snd loc + 1))
     else ret (inr loc))
    (fun _ => ret (inr loc)).

Definition processing_failed (role : string) : M (response + pyval * Z) :=
  flash processing_error "danger" ;;;
  ret (inl (index_page role)).

Definition verify_room (role : string) (rq : request) (q : Reservation)
    (loc : pyval * Z) : M (response + pyval * Z) :=
  try_except
    (d <~ get_db ;;
     for_loop (select_rooms (res_HotelID q) (res_Room_no q) d)
       (fun rm =>
          check_item (t <~ read_global rtype "rtype" ;; ret (py_eq (room_Type rm) t))
                     "description" rq)
       loc)
    (fun _ => processing_failed role).

Definition verify_breakfast (role : string) (rq : request) (q : Reservation)
    (loc : pyval * Z) : M (response + pyval * Z) :=
  try_except
    (g <~ get_vars ;;
     d <~ get_db ;;
     for_loop (select_breakfast (inv_no g) d)
       (fun food =>
          check_item (t <~ read_global bftype "bftype" ;; ret (py_eq (bf_BType food) t))
                     "description2" rq)
       loc)
    (fun _ => processing_failed role).

Definition verify_service (role : string) (rq : request) (q : Reservation)
    (loc : pyval * Z) : M (response + pyval * Z) :=
  try_except
    (g <~ get_vars ;;
     d <~ get_db ;;
     for_loop (select_service (inv_no g) d)
       (fun ser =>
          check_item (t <~ read_global stype "stype" ;; ret (py_eq (cs_sType ser) t))
                     "description3" rq)
       loc)
    (fun _ => processing_failed role).

(** The first [try] block: the line items of the selected invoice are
    checked against the stored sub-type of the active category. *)
Definition verify (role : string) (user : User) (rq : request)
    (loc : pyval * Z) : M (response + pyval * Z) :=
  try_except
    (let cid := CID user in
     g <~ get_vars ;;
     d <~ get_db ;;
     if py_eq (ReviewType g) (PInt 1) then
       for_loop (select_reservations cid (inv_no g) d) (verify_room role rq) loc
     else if py_eq (ReviewType g) (PInt 2) then
       for_loop (select_reservations cid (inv_no g) d) (verify_breakfast role rq) loc
     else if py_eq (ReviewType g) (PInt 3) then
       for_loop (select_reservations cid (inv_no g) d) (verify_service role rq) loc
     else ret (inr loc))
    (fun _ => processing_failed role).

(** The re-query after the insert: [ReviewIDtest] ends up as the id of
    the last row that has the rating, the comment and the invoice. *)
Definition recover_review_id (rating text : pyval) : M unit :=
  g <~ get_vars ;;
  d <~ get_db ;;
  for_each (select_reviews rating text (inv_no g) d)
    (fun test _ => assign (set_ReviewIDtest (ReviewID test))) tt.

(** The block under [if SCounter > 0]. *)
Definition record_review (user : User) (Text : pyval) : M unit :=
  let cid := CID user in
  g <~ get_vars ;;
  if py_eq (ReviewType g) (PInt 1) then
    create_review (rrate g) Text cid (inv_no g) ;;;
    recover_review_id (rrate g) Text ;;;
    g' <~ get_vars ;;
    create_rmreview (ReviewIDtest g') (rno g') (hid g')
  else if py_eq (ReviewType g) (PInt 2) then
    create_review (bfrate g) Text cid (inv_no g) ;;;
    recover_review_id (bfrate g) Text ;;;
    g' <~ get_vars ;;
    t <~ read_global bftype "bftype" ;;
    create_brkreview (ReviewIDtest g') t (hid g')
  else if py_eq (ReviewType g) (PInt 3) then
    create_review (srate g) Text cid (inv_no g) ;;;
    recover_review_id (srate g) Text ;;;
    g' <~ get_vars ;;
    t <~ read_global stype "stype" ;;
    create_servreview (ReviewIDtest g') t (hid g')
  else ret tt.

(** [rreview] prints [inv_no], [ReviewType], [rrate] and [rtype] before
    its first [try]; the first three are bound at module level, reading
    [rtype] is the one step there that can raise. *)
Definition rreview (role : string) (user : User) (rq : request) : M response :=
  read_global rtype "rtype" ;;;
  r <~ verify role user rq (PStr "hi", 0) ;;
  match r with
  | inl resp => ret resp
  | inr (Text, SCounter) =>
      if SCounter >? 0 then
        record_review user Text ;;;
        ret (success_page role)
      else
        flash not_ordered_error "danger" ;;;
        ret (index_page role)
  end.

(** *** What was ordered

    The claims speak of the line items of the selected invoice that
    belong to the session user; these predicates say it without the
    loops of the handler. *)

Definition own_reservation (user : User) (g : globals) (d : database)
    (q : Reservation) : Prop :=
  In q (reservations d) /\ sql_eq (res_CID q) (CID user) = true
  /\ sql_eq (res_InvoiceNo q) (inv_no g) = true.

Definition room_ordered (user : User) (g : globals) (d : database) : Prop :=
  exists q rm t,
    own_reservation user g d q /\ In rm (rooms d)
    /\ sql_eq (room_HotelID rm) (res_HotelID q) = true
    /\ sql_eq (room_Room_no rm) (res_Room_no q) = true
    /\ rtype g = Some t /\ py_eq (room_Type rm) t = true.

Definition breakfast_ordered (user : User) (g : globals) (d : database) : Prop :=
  exists q food t,
    own_reservation user g d q /\ In food (inc_breakfast d)
    /\ sql_eq (bf_InvoiceNo food) (inv_no g) = true
    /\ bftype g = Some t /\ py_eq (bf_BType food) t = true.

Definition service_ordered (user : User) (g : globals) (d : database) : Prop :=
  exists q ser t,
    own_reservation user g d q /\ In ser (cont_service d)
    /\ sql_eq (cs_InvoiceNo ser) (inv_no g) = true
    /\ stype g = Some t /\ py_eq (cs_sType ser) t = true.

(** The stored sub-type of the active category matches a line item. *)
Definition ordered (user : User) (g : globals) (d : database) : Prop :=
  (py_eq (ReviewType g) (PInt 1) = true /\ room_ordered user g d)
  \/ (py_eq (ReviewType g) (PInt 2) = true /\ breakfast_ordered user g d)
  \/ (py_eq (ReviewType g) (PInt 3) = true /\ service_ordered user g d).

(** The form field the comment of the active category is read from. *)
Definition comment_field (g : globals) : option string :=
  if py_eq (ReviewType g) (PInt 1) then Some "description"%string
  else if py_eq (ReviewType g) (PInt 2) then Some "description2"%string
  else if py_eq (ReviewType g) (PInt 3) then Some "description3"%string
  else None.

(** The rating kept for the active category. *)
Definition active_rating (g : globals) : pyval :=
  if py_eq (ReviewType g) (PInt 1) then rrate g
  else if py_eq (ReviewType g) (PInt 2) then bfrate g
  else srate g.

(** The states the handlers can reach from a freshly loaded module. *)
Inductive reachable : globals -> Prop :=
| reach_start : reachable module_globals
| reach_index role s r s' :
    reachable (vars s) -> feedback role s = (r, s') -> reachable (vars s')
| reach_pick_res role user rq s r s' :
    reachable (vars s) -> pick_res role user rq s = (r, s') -> reachable (vars s')
| reach_rating role rq s r s' :
    reachable (vars s) -> get_rating_and_global role rq s = (r, s') -> reachable (vars s')
| reach_load_res role user rq s r s' :
    reachable (vars s) -> get_reserv role user rq s = (r, s') -> reachable (vars s')
| reach_success role user rq s r s' :
    reachable (vars s) -> rreview role user rq s = (r, s') -> reachable (vars s').

(** Either no category was ever chosen, or all three sub-types are bound. *)
Definition subtypes_stored (g : globals) : Prop :=
  (ReviewType g = PStr "-1" /\ rtype g = None /\ bftype g = None /\ stype g = None)
  \/ (is_Some (rtype g) /\ is_Some (bftype g) /\ is_Some (stype g)).

(** *** The verification loops, without the loops

    Each line item the loops of [verify] visit is a hit or a miss; a hit
    reads the comment and counts, unless the form lacks the field. *)

Definition matches_stored (sub : option pyval) (v : pyval) : bool :=
  match sub with
  | Some t => py_eq v t
  | None => false
  end.

Definition bump (comment : option string) (loc : pyval * Z) (hit : bool) : pyval * Z :=
  if hit then
    match comment with
    | Some text => (PStr text, snd loc + 1)
    | None => loc
    end
  else loc.

Definition tally (comment : option string) (hits : list bool) (loc : pyval * Z) : pyval * Z :=
  fold_left (bump comment) hits loc.

Definition room_hits (user : User) (g : globals) (d : database) : list bool :=
  flat_map
    (fun q => map (fun rm => matches_stored (rtype g) (room_Type rm))
                  (select_rooms (res_HotelID q) (res_Room_no q) d))
    (select_reservations (CID user) (inv_no g) d).

Definition breakfast_hits (user : User) (g : globals) (d : database) : list bool :=
  flat_map
    (fun _ : Reservation =>
       map (fun food => matches_stored (bftype g) (bf_BType food))
           (select_breakfast (inv_no g) d))
    (select_reservations (CID user) (inv_no g) d).

Definition service_hits (user : User) (g : globals) (d : database) : list bool :=
  flat_map
    (fun _ : Reservation =>
       map (fun ser => matches_stored (stype g) (cs_sType ser))
           (select_service (inv_no g) d))
    (select_reservations (CID user) (inv_no g) d).

Definition line_item_hits (user : User) (g : globals) (d : database) : list bool :=
  if py_eq (ReviewType g) (PInt 1) then room_hits user g d
  else if py_eq (ReviewType g) (PInt 2) then breakfast_hits user g d
  else if py_eq (ReviewType g) (PInt 3) then service_hits user g d
  else [].

(** The Review row a successful submission inserts. *)
Definition new_review (user : User) (g : globals) (d : database) (text : string)
    : writes_Review :=
  {| ReviewID := PInt (largest_id (reviews d) + 1);
     Rating := active_rating g;
     TextComment := PStr text;
     rev_CID := CID user;
     rev_InvoiceNo := inv_no g |}.

(** Two states of the module variables agree on the chosen category and
    on the sub-types. *)
Definition same_choice (g g' : globals) : Prop :=
  ReviewType g' = ReviewType g /\ rtype g' = rtype g
  /\ bftype g' = bftype g /\ stype g' = stype g.

(** A computation that leaves the chosen category and the sub-types alone. *)
Definition keeps_choice {A} (m : M A) : Prop :=
  forall s, same_choice (vars s) (vars (snd (m s))).

(** *** The tables of pick_res and the rows of load_Res, without the loops *)

Definition reservation_dict (r : Reservation) : list (string * pyval) :=
  [("inv", res_InvoiceNo r); ("ordered", res_ResDate r);
   ("out_date", res_OutDate r); ("in_date", res_InDate r);
   ("room_no", res_Room_no r); ("hotel_id", res_HotelID r);
   ("cnumber", res_CNumber r); ("totalamt", res_TotalAmt r);
   ("cid", res_CID r)]%string.

Definition service_dict (s : Cont_Service) : list (string * pyval) :=
  [("serv", cs_sType s); ("inv", cs_InvoiceNo s); ("hotel_id", cs_HotelID s)]%string.

Definition breakfast_dict (bf : Inc_Breakfast) : list (string * pyval) :=
  [("inv", bf_InvoiceNo bf); ("brktype", bf_BType bf); ("hotel_id", bf_HotelID bf)]%string.

(** [request.args.get('id')] *)
Definition requested_invoice (rq : request) : pyval :=
  match args rq !! "id"%string with
  | Some s => PStr s
  | None => PNone
  end.

(** The room and the hotel [pick_res] leaves in the module variables. *)
Definition picked (g : globals) (own : list Reservation) : globals :=
  fold_left (fun g r => set_hid (res_HotelID r) (set_rno (res_Room_no r) g)) own g.

(** The ReviewType of a rating payload that has all five fields. *)
Definition complete_payload (rq : request) : option pyval :=
  match json rq with
  | Some data =>
      match data !! "radioValue"%string, data !! "ReviewType"%string,
            data !! "rootype"%string, data !! "breakftype"%string,
            data !! "servtype"%string with
      | Some _, Some RevType, Some _, Some _, Some _ => Some RevType
      | _, _, _, _, _ => None
      end
  | None => None
  end.

(** One turn of the outer loop of [get_reserv] on the pair of the room
    type seen last and the rows built so far. *)
Definition reserv_step (d : database) (loc : pyval * list (list pyval))
    (r : Reservation) : pyval * list (list pyval) :=
  let rmtype := fold_left (fun _ rt => room_Type rt)
                  (select_rooms_numbered (res_Room_no r) d) (fst loc) in
  (rmtype, snd loc ++ [[res_HotelID r; rmtype; res_Room_no r; res_InvoiceNo r]]).

(** The Review row [create_review] appends, and the state once the
    re-query has recovered its id. *)
Definition stored_review (user : User) (s : state) (rating Text : pyval)
    : writes_Review :=
  {| ReviewID := PInt (largest_id (reviews (db s)) + 1);
     Rating := rating; TextComment := Text;
     rev_CID := CID user; rev_InvoiceNo := inv_no (vars s) |}.

Definition after_review (s : state) (rv : writes_Review) : state :=
  {| vars := set_ReviewIDtest (ReviewID rv) (vars s);
     db := with_reviews (db s) (reviews (db s) ++ [rv]);
     flashes := flashes s |}.

Definition with_db (s : state) (d : database) : state :=
  {| vars := vars s; db := d; flashes := flashes s |}.

(** The review ids held by the link table of the active category. *)
Definition active_link_ids (g : globals) (d : database) : list pyval :=
  if py_eq (ReviewType g) (PInt 1) then map rr_ReviewID (room_reviews d)
  else if py_eq (ReviewType g) (PInt 2) then map br_ReviewID (breakfast_reviews d)
  else map sr_ReviewID (service_reviews d).

End Feedback.

(** ** The feedback routes behind the gate *)

Module Routes.

Import Auth Feedback.
Local Open Scope handler_scope.

(** [@require_role(['admin','manager', 'customer'], getrole=True)] *)
Definition route_roles : role_arg := RoleList ["admin"; "manager"; "customer"]%string.

Definition route_flags : gmap string pyval := {[ "getrole"%string := PBool true ]}.

(** A view [def view(role)] applied to the positional and keyword
    arguments the wrapper passes on: one positional
    argument, or the keyword [role] alone, binds the parameter; any other
    shape of call is a TypeError. The role of a user row is a string. The
    views read [flask_login.current_user] themselves. *)
Definition apply_view (view : string -> User -> request -> M response)
    (cu : option User) (rq : request) (args : list pyval)
    (kwargs : gmap string pyval) : M response :=
  match cu with
  | None => raise TypeError
  | Some user =>
      match args with
      | [PStr role] =>
          if (size kwargs =? 0)%nat then view role user rq else raise TypeError
      | [] =>
          match kwargs !! "role"%string with
          | Some (PStr role) =>
              if (size kwargs =? 1)%nat then view role user rq else raise TypeError
          | _ => raise TypeError
          end
      | _ => raise TypeError
      end
  end.

(** The framework calls the decorated view without positional arguments
    and with the variables of the URL rule as keywords; the feedback
    rules have none. *)
Definition route (view : string -> User -> request -> M response)
    (w : world) (rq : request) : M response :=
  match require_role route_roles route_flags w [] ∅ with
  | CallView args kwargs => apply_view view (current_user w) rq args kwargs
  | CallUnauthorized => ret unauth
  end.

Definition feedback_route : world -> request -> M response :=
  route (fun role _ _ => feedback role).
Definition pick_res_route : world -> request -> M response := route pick_res.
Definition rating_route : world -> request -> M response :=
  route (fun role _ rq => get_rating_and_global role rq).
Definition load_Res_route : world -> request -> M response := route get_reserv.
Definition success_route : world -> request -> M response := route rreview.

End Routes.

(** ** Concrete requests and states used below *)

Module Examples.

Import Auth Feedback.

(** A toy password scheme: the hash of [p] is ["h:" ++ p]. *)
Definition toy_check (pwhash pw : string) : bool :=
  String.eqb pwhash ("h:" ++ pw)%string.

Definition toy_str (e : exn) : string :=
  match e with
  | KeyError k => k
  | NameError n => n
  | TypeError => "TypeError"
  end.

Definition alice : User :=
  {| Email := "alice@example.org"; password := "h:wonderland"; name := "Alice";
     address := "1 Main St"; phone_no := "555-0100"; role := "customer";
     CID := PInt 7 |}.

Definition bob : User :=
  {| Email := "bob@example.org"; password := "h:builder"; name := "Bob";
     address := "2 Side St"; phone_no := "555-0101"; role := "chef";
     CID := PInt 8 |}.

Definition anonymous_world : world :=
  {| users := [alice; bob]; session_uid := None; flashed := [] |}.

Definition alice_world : world :=
  {| users := [alice; bob]; session_uid := Some "alice@example.org"%string; flashed := [] |}.

Definition bob_world : world :=
  {| users := [alice; bob]; session_uid := Some "bob@example.org"%string; flashed := [] |}.

Definition post_login (email pw : string) : request :=
  {| method := "POST";
     form := <["email"%string := email]> (<["pw"%string := pw]> ∅);
     args := ∅; json := None |}.

Definition staff_roles : role_arg := RoleList ["admin"; "manager"; "customer"]%string.

Definition with_getrole : gmap string pyval := {[ "getrole"%string := PBool true ]}.

(** The scenario of the specification: invoice "1" of Alice, with a
    double room and one continental breakfast. *)
Definition hotel_db : database :=
  {| reservations :=
       [ {| res_InvoiceNo := PStr "1"; res_ResDate := PStr "2018-04-01";
            res_OutDate := PStr "2018-04-05"; res_InDate := PStr "2018-04-02";
            res_Room_no := PInt 101; res_HotelID := PInt 1;
            res_CNumber := PStr "4111"; res_TotalAmt := PInt 400;
            res_CID := PInt 7 |} ];
     rooms := [ {| room_HotelID := PInt 1; room_Room_no := PInt 101;
                   room_Type := PStr "double" |} ];
     inc_breakfast := [ {| bf_InvoiceNo := PStr "1"; bf_BType := PStr "continental";
                           bf_HotelID := PInt 1 |} ];
     cont_service := [];
     reviews := [];
     room_reviews := [];
     breakfast_reviews := [];
     service_reviews := [] |}.

Definition fresh_state : state :=
  {| vars := module_globals; db := hotel_db; flashes := [] |}.

Definition rating_payload (RevType breakftype_ : pyval) : gmap string pyval :=
  <["radioValue"%string := PInt 4]>
    (<["ReviewType"%string := RevType]>
       (<["rootype"%string := PStr "double"]>
          (<["breakftype"%string := breakftype_]>
             (<["servtype"%string := PStr "sno"]> ∅)))).

Definition post_rating (RevType breakftype_ : pyval) : request :=
  {| method := "POST"; form := ∅; args := ∅;
     json := Some (rating_payload RevType breakftype_) |}.

Definition post_comment (field text : string) : request :=
  {| method := "POST"; form := {[ field := text ]}; args := ∅; json := None |}.

Definition get_success : request :=
  {| method := "GET"; form := ∅; args := ∅; json := None |}.

(** The state after Alice has picked the breakfast category and the
    rating 4 for a continental breakfast, and for one she did not order. *)
Definition rated_continental : state :=
  snd (get_rating_and_global "customer"
         (post_rating (PInt 2) (PStr "continental")) fresh_state).

Definition rated_english : state :=
  snd (get_rating_and_global "customer"
         (post_rating (PInt 2) (PStr "english")) fresh_state).

(** Two stays of Alice under invoices "1" and "2"; the room of the
    second stay has no row in the room table. *)
Definition two_stays_db : database :=
  {| reservations :=
       [ {| res_InvoiceNo := PStr "1"; res_ResDate := PStr "2018-04-01";
            res_OutDate := PStr "2018-04-05"; res_InDate := PStr "2018-04-02";
            res_Room_no := PInt 101; res_HotelID := PInt 1;
            res_CNumber := PStr "4111"; res_TotalAmt := PInt 400;
            res_CID := PInt 7 |};
         {| res_InvoiceNo := PStr "2"; res_ResDate := PStr "2018-05-01";
            res_OutDate := PStr "2018-05-03"; res_InDate := PStr "2018-05-02";
            res_Room_no := PInt 999; res_HotelID := PInt 2;
            res_CNumber := PStr "4111"; res_TotalAmt := PInt 150;
            res_CID := PInt 7 |} ];
     rooms := [ {| room_HotelID := PInt 1; room_Room_no := PInt 101;
                   room_Type := PStr "double" |} ];
     inc_breakfast := [];
     cont_service := [];
     reviews := [];
     room_reviews := [];
     breakfast_reviews := [];
     service_reviews := [] |}.

Definition two_stays : state :=
  {| vars := module_globals; db := two_stays_db; flashes := [] |}.

Definition post_load_Res : request :=
  {| method := "POST"; form := ∅; args := ∅;
     json := Some {[ "RevType"%string := PInt 1 ]} |}.

Definition get_pick_res (invoice : string) : request :=
  {| method := "GET"; form := ∅; args := {[ "id"%string := invoice ]}; json := None |}.

Definition room_payload : gmap string pyval :=
  <["radioValue"%string := PInt 5]>
    (<["ReviewType"%string := PInt 1]>
       (<["rootype"%string := PStr "double"]>
          (<["breakftype"%string := PStr "bno"]>
             (<["servtype"%string := PStr "sno"]> ∅)))).

Definition post_room_rating : request :=
  {| method := "POST"; form := ∅; args := ∅; json := Some room_payload |}.

End Examples.

(** ** Properties of the authorization gate and of login *)

Module AuthSpec.

Import Auth Examples.

Lemma role_in_spec r roles :
  role_in r roles = true -> r ∈ permitted roles.
Proof.
  destruct roles as [s|l]; simpl; [discriminate|].
  intros H. apply existsb_exists in H as (x & Hx & Heq).
  apply String.eqb_eq in Heq. subst x. by apply list_elem_of_In.
Qed.

Lemma role_eq_spec r roles :
  role_eq r roles = true -> r ∈ permitted roles.
Proof.
  destruct roles as [s|l]; simpl; [|discriminate].
  intros H. apply String.eqb_eq in H. subst. apply list_elem_of_here.
Qed.

Lemma permitted_spec r roles :
  r ∈ permitted roles ->
  isinstance_list roles && role_in r roles = true \/ role_eq r roles = true.
Proof.
  destruct roles as [s|l]; simpl; intros H.
  - right. apply list_elem_of_singleton in H. subst. apply String.eqb_refl.
  - left. apply existsb_exists. exists r. split.
    + by apply list_elem_of_In.
    + apply String.eqb_refl.
Qed.

(** C1. An authenticated user whose role tag is not among the permitted
    ones (a single role or a list of roles) never reaches the wrapped
    view: the decorated view ends in the unauthorized handler, whose
    response is returned. *)
Theorem require_role_rejects_other_roles
    (roles : role_arg) (kwargss : gmap string pyval) (w : world) (user : User)
    (args : list pyval) (kwargs : gmap string pyval) :
  current_user w = Some user ->
  role user ∉ permitted roles ->
  require_role roles kwargss w args kwargs = CallUnauthorized
  /\ forall (R : Type) (func : list pyval -> gmap string pyval -> R),
       dispatch func (require_role roles kwargss w args kwargs) = inr unauth.
Proof.
  intros Hcu Hnot.
  assert (Hcall : require_role roles kwargss w args kwargs = CallUnauthorized).
  { unfold require_role, login_required, wrapper. rewrite Hcu.
    destruct (isinstance_list roles && role_in (role user) roles) eqn:Hin.
    - apply andb_true_iff in Hin as [_ Hin]. apply role_in_spec in Hin. contradiction.
    - destruct (role_eq (role user) roles) eqn:Heq; [|reflexivity].
      apply role_eq_spec in Heq. contradiction. }
  split; [exact Hcall|]. intros R func. rewrite Hcall. reflexivity.
Qed.

Lemma require_role_rejects_other_roles_witness :
  current_user bob_world = Some bob
  /\ (role bob ∉ permitted staff_roles)
  /\ require_role staff_roles with_getrole bob_world [] ∅ = CallUnauthorized.
Proof.
  assert (H1 : current_user bob_world = Some bob) by reflexivity.
  assert (H2 : role bob ∉ permitted staff_roles).
  { apply (bool_decide_unpack _). vm_compute. exact I. }
  split; [exact H1|]. split; [exact H2|].
  exact (proj1 (require_role_rejects_other_roles
                  staff_roles with_getrole bob_world bob [] ∅ H1 H2)).
Defined.

(** The claim C9 as it is written fails for positional arguments: with
    the flag set, a positional argument handed to the decorated view does
    not follow the role, the view gets the role alone. *)
Lemma getrole_replaces_positional_args :
  current_user alice_world = Some alice
  /\ (role alice ∈ permitted staff_roles)
  /\ truthy (default (PBool false) (with_getrole !! "getrole"%string)) = true
  /\ require_role staff_roles with_getrole alice_world [PInt 42] ∅
     = CallView [PStr "customer"] ∅
  /\ require_role staff_roles with_getrole alice_world [PInt 42] ∅
     <> CallView (PStr (role alice) :: [PInt 42]) ∅.
Proof.
  split; [reflexivity|]. split.
  { apply (bool_decide_unpack _). vm_compute. exact I. }
  split; [reflexivity|]. split; [reflexivity|].
  intros H. vm_compute in H. discriminate H.
Qed.

(** C9 (amended). With the role-injection flag set and access granted,
    the wrapped view is called with the session user's role string as
    its only positional argument (positional arguments given to the
    decorated view are replaced by it) and with the keyword arguments
    unchanged. *)
Theorem require_role_getrole_passes_role
    (roles : role_arg) (kwargss : gmap string pyval) (w : world) (user : User)
    (args : list pyval) (kwargs : gmap string pyval) (flag : pyval) :
  current_user w = Some user ->
  kwargss !! "getrole"%string = Some flag ->
  truthy flag = true ->
  role user ∈ permitted roles ->
  require_role roles kwargss w args kwargs = CallView [PStr (role user)] kwargs
  /\ forall (R : Type) (func : list pyval -> gmap string pyval -> R),
       dispatch func (require_role roles kwargss w args kwargs)
       = inl (func [PStr (role user)] kwargs).
Proof.
  intros Hcu Hflag Htrue Hin.
  assert (Hcall : require_role roles kwargss w args kwargs
                  = CallView [PStr (role user)] kwargs).
  { unfold require_role, login_required, wrapper. rewrite Hcu, Hflag. simpl.
    rewrite Htrue.
    destruct (permitted_spec _ _ Hin) as [H|H]; rewrite H; [reflexivity|].
    destruct (isinstance_list roles && role_in (role user) roles); reflexivity. }
  split; [exact Hcall|]. intros R func. rewrite Hcall. reflexivity.
Qed.

Lemma require_role_getrole_passes_role_witness :
  current_user alice_world = Some alice
  /\ with_getrole !! "getrole"%string = Some (PBool true)
  /\ truthy (PBool true) = true
  /\ (role alice ∈ permitted staff_roles)
  /\ require_role staff_roles with_getrole alice_world [PInt 42] ∅
     = CallView [PStr (role alice)] ∅.
Proof.
  assert (H1 : current_user alice_world = Some alice) by reflexivity.
  assert (H2 : with_getrole !! "getrole"%string = Some (PBool true)) by reflexivity.
  assert (H3 : truthy (PBool true) = true) by reflexivity.
  assert (H4 : role alice ∈ permitted staff_roles).
  { apply (bool_decide_unpack _). vm_compute. exact I. }
  split; [exact H1|]. split; [exact H2|]. split; [exact H3|]. split; [exact H4|].
  exact (proj1 (require_role_getrole_passes_role
                  staff_roles with_getrole alice_world alice [PInt 42] ∅
                  (PBool true) H1 H2 H3 H4)).
Defined.

Section LoginSpec.

Variable check_password_hash : string -> string -> bool.
Variable str_exn : exn -> string.

Lemma select_by_email_head tbl email user rest :
  select_by_email tbl email = user :: rest -> Email user = email.
Proof.
  intros H.
  assert (Hin : In user (select_by_email tbl email)) by (rewrite H; left; reflexivity).
  apply filter_In in Hin as [_ Heq]. by apply String.eqb_eq in Heq.
Qed.

(** C6 (amended). A login request that is not a GET and comes from a
    client that is not logged in, whose password does not match the hash
    stored in the first row found for the submitted email, gets the login
    page with status 401; the session is left as it was, so the client
    is still not logged in. *)
Theorem login_wrong_password
    (rq : request) (w : world) (email pw : string) (user : User) (rest : list User) :
  current_user w = None ->
  method rq <> "GET"%string ->
  form rq !! "email"%string = Some email ->
  form rq !! "pw"%string = Some pw ->
  select_by_email (users w) email = user :: rest ->
  check_password_hash (password user) pw = false ->
  fst (login check_password_hash str_exn rq w) = login_page 401
  /\ status_of (fst (login check_password_hash str_exn rq w)) = 401
  /\ session_uid (snd (login check_password_hash str_exn rq w)) = session_uid w
  /\ current_user (snd (login check_password_hash str_exn rq w)) = None.
Proof.
  intros Hcu Hm He Hp Hsel Hchk. unfold login.
  rewrite Hcu. rewrite bool_decide_eq_false_2 by (intros [? ?]; discriminate).
  apply String.eqb_neq in Hm. rewrite Hm, He, Hsel, Hp, Hchk. simpl.
  repeat split; try reflexivity. exact Hcu.
Qed.

End LoginSpec.

Lemma login_wrong_password_witness :
  fst (login toy_check toy_str (post_login "alice@example.org" "guess") anonymous_world)
    = login_page 401
  /\ session_uid (snd (login toy_check toy_str
                         (post_login "alice@example.org" "guess") anonymous_world)) = None.
Proof.
  pose proof (login_wrong_password toy_check toy_str
                (post_login "alice@example.org" "guess") anonymous_world
                "alice@example.org" "guess" alice []) as H.
  destruct H as (H1 & _ & H3 & _).
  - reflexivity.
  - discriminate.
  - reflexivity.
  - reflexivity.
  - reflexivity.
  - reflexivity.
  - split; [exact H1 | exact H3].
Defined.

(** The claim C6 as it is written fails for a client that is already
    logged in: the request carries a password that does not match the
    stored hash, and the answer is the redirect to the index, with the
    client's session in place. *)
Lemma login_wrong_password_when_logged_in :
  let rq := post_login "alice@example.org" "guess" in
  form rq !! "email"%string = Some "alice@example.org"%string
  /\ form rq !! "pw"%string = Some "guess"%string
  /\ select_by_email (users alice_world) "alice@example.org" = [alice]
  /\ toy_check (password alice) "guess" = false
  /\ fst (login toy_check toy_str rq alice_world) = Redirect "index"
  /\ fst (login toy_check toy_str rq alice_world) <> login_page 401
  /\ current_user (snd (login toy_check toy_str rq alice_world)) = Some alice.
Proof.
  simpl. repeat split; try reflexivity.
  intros H. vm_compute in H. discriminate H.
Qed.

End AuthSpec.

(** ** Properties of the feedback workflow *)

Module FeedbackSpec.

Import Auth Feedback Examples.
Local Open Scope handler_scope.

(** *** Equality of values *)

Lemma sql_eq_refl v : sql_eq v v = true.
Proof.
  destruct v as [|b|z|s]; simpl; auto.
  - by destruct b.
  - apply Z.eqb_refl.
  - apply String.eqb_refl.
Qed.

Lemma py_eq_1_2 v : py_eq v (PInt 1) = true -> py_eq v (PInt 2) = false.
Proof. destruct v as [|[]|z|s]; simpl; try discriminate; lia. Qed.

Lemma py_eq_1_3 v : py_eq v (PInt 1) = true -> py_eq v (PInt 3) = false.
Proof. destruct v as [|[]|z|s]; simpl; try discriminate; lia. Qed.

Lemma py_eq_2_1 v : py_eq v (PInt 2) = true -> py_eq v (PInt 1) = false.
Proof. destruct v as [|[]|z|s]; simpl; try discriminate; lia. Qed.

Lemma py_eq_2_3 v : py_eq v (PInt 2) = true -> py_eq v (PInt 3) = false.
Proof. destruct v as [|[]|z|s]; simpl; try discriminate; lia. Qed.

Lemma py_eq_3_1 v : py_eq v (PInt 3) = true -> py_eq v (PInt 1) = false.
Proof. destruct v as [|[]|z|s]; simpl; try discriminate; lia. Qed.

Lemma py_eq_3_2 v : py_eq v (PInt 3) = true -> py_eq v (PInt 2) = false.
Proof. destruct v as [|[]|z|s]; simpl; try discriminate; lia. Qed.

(** *** The state record *)

Lemma state_eta s : {| vars := vars s; db := db s; flashes := flashes s |} = s.
Proof. by destruct s. Qed.

Lemma set_ReviewIDtest_twice v w g :
  set_ReviewIDtest v (set_ReviewIDtest w g) = set_ReviewIDtest v g.
Proof. reflexivity. Qed.

Lemma set_ReviewIDtest_id g : set_ReviewIDtest (ReviewIDtest g) g = g.
Proof. by destruct g. Qed.

(** *** Loops *)

Lemma for_loop_pure {A B} (f : B -> A -> B) (body : A -> B -> M (response + B))
    (s : state) (rows : list A) :
  (forall x loc, body x loc s = (Ok (inr (f loc x)), s)) ->
  forall loc, for_loop rows body loc s = (Ok (inr (fold_left f rows loc)), s).
Proof.
  intros Hbody. induction rows as [|x rest IH]; intros loc; simpl.
  - reflexivity.
  - unfold bind. rewrite Hbody. apply IH.
Qed.

Lemma fold_left_flat_map {A B C} (f : C -> B -> C) (g : A -> list B) (l : list A) (c : C) :
  fold_left f (flat_map g l) c = fold_left (fun c x => fold_left f (g x) c) l c.
Proof.
  revert c. induction l as [|x l IH]; intros c; simpl; [reflexivity|].
  rewrite fold_left_app. apply IH.
Qed.

Lemma fold_left_map {A B C} (f : C -> B -> C) (g : A -> B) (l : list A) (c : C) :
  fold_left f (map g l) c = fold_left (fun c x => f c (g x)) l c.
Proof. revert c. induction l as [|x l IH]; intros c; simpl; auto. Qed.

(** *** The verification block *)

Lemma check_item_eq (sub : globals -> option pyval) (name field : string)
    (v : pyval) (rq : request) (loc : pyval * Z) (s : state) :
  check_item (t <~ read_global sub name ;; ret (py_eq v t)) field rq loc s
  = (Ok (inr (bump (form rq !! field) loc (matches_stored (sub (vars s)) v))), s).
Proof.
  cbv beta iota zeta delta
    [check_item try_except bind read_global get_vars getitem ret raise
     matches_stored bump].
  destruct (sub (vars s)) as [t|]; [|reflexivity].
  destruct (py_eq v t); [|reflexivity].
  destruct (form rq !! field); reflexivity.
Qed.

Lemma verify_room_eq role rq q loc s :
  verify_room role rq q loc s
  = (Ok (inr (tally (form rq !! "description"%string)
                (map (fun rm => matches_stored (rtype (vars s)) (room_Type rm))
                     (select_rooms (res_HotelID q) (res_Room_no q) (db s)))
                loc)), s).
Proof.
  unfold verify_room, try_except, bind at 1, get_db.
  rewrite (for_loop_pure
             (fun loc rm => bump (form rq !! "description"%string) loc
                              (matches_stored (rtype (vars s)) (room_Type rm)))).
  - unfold tally. by rewrite fold_left_map.
  - intros rm loc'. apply check_item_eq.
Qed.

Lemma verify_breakfast_eq role rq q loc s :
  verify_breakfast role rq q loc s
  = (Ok (inr (tally (form rq !! "description2"%string)
                (map (fun food => matches_stored (bftype (vars s)) (bf_BType food))
                     (select_breakfast (inv_no (vars s)) (db s)))
                loc)), s).
Proof.
  unfold verify_breakfast, try_except, bind at 1, get_vars. unfold bind at 1, get_db.
  rewrite (for_loop_pure
             (fun loc food => bump (form rq !! "description2"%string) loc
                                (matches_stored (bftype (vars s)) (bf_BType food)))).
  - unfold tally. by rewrite fold_left_map.
  - intros food loc'. apply check_item_eq.
Qed.

Lemma verify_service_eq role rq q loc s :
  verify_service role rq q loc s
  = (Ok (inr (tally (form rq !! "description3"%string)
                (map (fun ser => matches_stored (stype (vars s)) (cs_sType ser))
                     (select_service (inv_no (vars s)) (db s)))
                loc)), s).
Proof.
  unfold verify_service, try_except, bind at 1, get_vars. unfold bind at 1, get_db.
  rewrite (for_loop_pure
             (fun loc ser => bump (form rq !! "description3"%string) loc
                               (matches_stored (stype (vars s)) (cs_sType ser)))).
  - unfold tally. by rewrite fold_left_map.
  - intros ser loc'. apply check_item_eq.
Qed.

(** The first [try] block never leaves the view and never changes the
    state: it computes the tally of the line items. *)
Lemma verify_eq role user rq loc s :
  verify role user rq loc s
  = (Ok (inr (tally (comment_field (vars s) ≫= fun field => form rq !! field)
                (line_item_hits user (vars s) (db s)) loc)), s).
Proof.
  unfold verify, try_except, bind at 1, get_vars. unfold bind at 1, get_db.
  unfold comment_field, line_item_hits.
  destruct (py_eq (ReviewType (vars s)) (PInt 1)).
  { rewrite (for_loop_pure
               (fun loc q => tally (form rq !! "description"%string)
                  (map (fun rm => matches_stored (rtype (vars s)) (room_Type rm))
                       (select_rooms (res_HotelID q) (res_Room_no q) (db s))) loc)).
    - unfold room_hits, tally. simpl. by rewrite fold_left_flat_map.
    - intros q loc'. apply verify_room_eq. }
  destruct (py_eq (ReviewType (vars s)) (PInt 2)).
  { rewrite (for_loop_pure
               (fun loc (q : Reservation) => tally (form rq !! "description2"%string)
                  (map (fun food => matches_stored (bftype (vars s)) (bf_BType food))
                       (select_breakfast (inv_no (vars s)) (db s))) loc)).
    - unfold breakfast_hits, tally. simpl. by rewrite fold_left_flat_map.
    - intros q loc'. apply verify_breakfast_eq. }
  destruct (py_eq (ReviewType (vars s)) (PInt 3)).
  { rewrite (for_loop_pure
               (fun loc (q : Reservation) => tally (form rq !! "description3"%string)
                  (map (fun ser => matches_stored (stype (vars s)) (cs_sType ser))
                       (select_service (inv_no (vars s)) (db s))) loc)).
    - unfold service_hits, tally. simpl. by rewrite fold_left_flat_map.
    - intros q loc'. apply verify_service_eq. }
  reflexivity.
Qed.

(** *** The tally *)

Lemma tally_no_comment hits loc : tally None hits loc = loc.
Proof.
  unfold tally. revert loc. induction hits as [|h hits IH]; intros loc; simpl; auto.
  rewrite IH. by destruct h.
Qed.

Lemma tally_no_hit comment hits loc :
  ~ In true hits -> tally comment hits loc = loc.
Proof.
  unfold tally. revert loc. induction hits as [|h hits IH]; intros loc Hno; simpl; auto.
  destruct h.
  - exfalso. apply Hno. by left.
  - simpl. apply IH. intros H. apply Hno. by right.
Qed.

Lemma tally_counts_up comment hits loc : snd loc <= snd (tally comment hits loc).
Proof.
  unfold tally. revert loc. induction hits as [|h hits IH]; intros loc; simpl; [lia|].
  etransitivity; [|apply IH].
  destruct h, comment; simpl; lia.
Qed.

Lemma tally_hit text hits loc :
  In true hits ->
  fst (tally (Some text) hits loc) = PStr text
  /\ snd loc < snd (tally (Some text) hits loc).
Proof.
  unfold tally. revert loc. induction hits as [|h hits IH]; intros loc Hin; [destruct Hin|].
  simpl. destruct h; simpl.
  - clear IH Hin. split.
    + generalize (snd loc + 1). intros n. revert n.
      induction hits as [|h hits IH]; intros n; simpl; auto.
      destruct h; simpl; auto.
    + pose proof (tally_counts_up (Some text) hits (PStr text, snd loc + 1)) as H.
      unfold tally in H. simpl in H. lia.
  - destruct Hin as [Hin|Hin]; [discriminate|]. by apply IH.
Qed.

(** *** The tally and what was ordered *)

Lemma select_reservations_own user g d q :
  In q (select_reservations (CID user) (inv_no g) d) <-> own_reservation user g d q.
Proof.
  unfold select_reservations, own_reservation. rewrite filter_In, andb_true_iff. tauto.
Qed.

Lemma room_hits_ordered user g d :
  In true (room_hits user g d) <-> room_ordered user g d.
Proof.
  unfold room_hits, room_ordered. rewrite in_flat_map. split.
  - intros (q & Hq & Hhit). apply in_map_iff in Hhit as (rm & Hm & Hrm).
    apply select_reservations_own in Hq.
    unfold select_rooms in Hrm. apply filter_In in Hrm as [Hrm Hk].
    apply andb_true_iff in Hk as [Hh Hn].
    unfold matches_stored in Hm. destruct (rtype g) as [t|]; [|discriminate].
    exists q, rm, t. auto 10.
  - intros (q & rm & t & Hq & Hrm & Hh & Hn & Ht & Hm).
    exists q. split; [by apply select_reservations_own|].
    apply in_map_iff. exists rm. split.
    + unfold matches_stored. by rewrite Ht.
    + unfold select_rooms. apply filter_In. split; [done|].
      by rewrite Hh, Hn.
Qed.

Lemma breakfast_hits_ordered user g d :
  In true (breakfast_hits user g d) <-> breakfast_ordered user g d.
Proof.
  unfold breakfast_hits, breakfast_ordered. rewrite in_flat_map. split.
  - intros (q & Hq & Hhit). apply in_map_iff in Hhit as (food & Hm & Hf).
    apply select_reservations_own in Hq.
    unfold select_breakfast in Hf. apply filter_In in Hf as [Hf Hk].
    unfold matches_stored in Hm. destruct (bftype g) as [t|]; [|discriminate].
    exists q, food, t. auto 10.
  - intros (q & food & t & Hq & Hf & Hk & Ht & Hm).
    exists q. split; [by apply select_reservations_own|].
    apply in_map_iff. exists food. split.
    + unfold matches_stored. by rewrite Ht.
    + unfold select_breakfast. apply filter_In. by split.
Qed.

Lemma service_hits_ordered user g d :
  In true (service_hits user g d) <-> service_ordered user g d.
Proof.
  unfold service_hits, service_ordered. rewrite in_flat_map. split.
  - intros (q & Hq & Hhit). apply in_map_iff in Hhit as (ser & Hm & Hf).
    apply select_reservations_own in Hq.
    unfold select_service in Hf. apply filter_In in Hf as [Hf Hk].
    unfold matches_stored in Hm. destruct (stype g) as [t|]; [|discriminate].
    exists q, ser, t. auto 10.
  - intros (q & ser & t & Hq & Hf & Hk & Ht & Hm).
    exists q. split; [by apply select_reservations_own|].
    apply in_map_iff. exists ser. split.
    + unfold matches_stored. by rewrite Ht.
    + unfold select_service. apply filter_In. by split.
Qed.

Lemma line_item_hits_ordered user g d :
  In true (line_item_hits user g d) <-> ordered user g d.
Proof.
  unfold line_item_hits, ordered.
  destruct (py_eq (ReviewType g) (PInt 1)) eqn:H1.
  { rewrite room_hits_ordered, (py_eq_1_2 _ H1), (py_eq_1_3 _ H1).
    split; [auto|]. intros [[_ H]|[[H _]|[H _]]]; try discriminate; done. }
  destruct (py_eq (ReviewType g) (PInt 2)) eqn:H2.
  { rewrite breakfast_hits_ordered, (py_eq_2_3 _ H2).
    split; [auto|]. intros [[H _]|[[_ H]|[H _]]]; try discriminate; done. }
  destruct (py_eq (ReviewType g) (PInt 3)) eqn:H3.
  { rewrite service_hits_ordered.
    split; [auto|]. intros [[H _]|[[H _]|[_ H]]]; try discriminate; done. }
  simpl. split; [tauto|]. intros [[H _]|[[H _]|[H _]]]; discriminate.
Qed.

(** *** Recording *)

Lemma for_each_recover rows s :
  for_each rows (fun test (_ : unit) => assign (set_ReviewIDtest (ReviewID test))) tt s
  = (Ok tt,
     {| vars := set_ReviewIDtest
                  (fold_left (fun _ test => ReviewID test) rows (ReviewIDtest (vars s)))
                  (vars s);
        db := db s; flashes := flashes s |}).
Proof.
  revert s. induction rows as [|test rows IH]; intros s; simpl.
  - unfold ret. by rewrite set_ReviewIDtest_id, state_eta.
  - unfold bind, assign. rewrite IH. reflexivity.
Qed.

Lemma fold_left_last_id (rows : list writes_Review) (rv : writes_Review) (v : pyval) :
  fold_left (fun _ test => ReviewID test) (rows ++ [rv]) v = ReviewID rv.
Proof. by rewrite fold_left_app. Qed.

Lemma select_reviews_appended rv d l :
  reviews d = l ++ [rv] ->
  select_reviews (Rating rv) (TextComment rv) (rev_InvoiceNo rv) d
  = List.filter
      (fun t => sql_eq (Rating t) (Rating rv) && sql_eq (TextComment t) (TextComment rv)
                && sql_eq (rev_InvoiceNo t) (rev_InvoiceNo rv)) l ++ [rv].
Proof.
  intros H. unfold select_reviews. rewrite H, List.filter_app. simpl.
  by rewrite !sql_eq_refl.
Qed.

(** After the insert, the re-query ends on the inserted row. *)
Lemma recover_after_create rating text cid s :
  (create_review rating text cid (inv_no (vars s)) ;;; recover_review_id rating text) s
  = (Ok tt,
     {| vars := set_ReviewIDtest (PInt (largest_id (reviews (db s)) + 1)) (vars s);
        db := with_reviews (db s)
                (reviews (db s) ++
                 [ {| ReviewID := PInt (largest_id (reviews (db s)) + 1);
                      Rating := rating; TextComment := text; rev_CID := cid;
                      rev_InvoiceNo := inv_no (vars s) |} ]);
        flashes := flashes s |}).
Proof.
  cbv beta iota zeta delta [bind create_review get_db put_db recover_review_id get_vars].
  simpl vars. simpl db.
  set (rv := {| ReviewID := PInt (largest_id (reviews (db s)) + 1);
                Rating := rating; TextComment := text; rev_CID := cid;
                rev_InvoiceNo := inv_no (vars s) |}).
  rewrite for_each_recover. simpl.
  pose proof (select_reviews_appended rv
                (with_reviews (db s) (reviews (db s) ++ [rv])) (reviews (db s)) eq_refl)
    as Hsel.
  simpl in Hsel. rewrite Hsel.
  by rewrite fold_left_last_id.
Qed.

Lemma bind_assoc {A B C} (m : M A) (k : A -> M B) (h : B -> M C) (s : state) :
  bind m (fun x => bind (k x) h) s = bind (bind m k) h s.
Proof. unfold bind. destruct (m s) as [[a|e] s']; reflexivity. Qed.

Lemma record_review_room user Text s :
  py_eq (ReviewType (vars s)) (PInt 1) = true ->
  record_review user Text s
  = (Ok tt,
     {| vars := set_ReviewIDtest (PInt (largest_id (reviews (db s)) + 1)) (vars s);
        db := with_room_reviews
                (with_reviews (db s)
                   (reviews (db s) ++
                    [ {| ReviewID := PInt (largest_id (reviews (db s)) + 1);
                         Rating := rrate (vars s); TextComment := Text;
                         rev_CID := CID user; rev_InvoiceNo := inv_no (vars s) |} ]))
                (room_reviews (db s) ++
                 [ {| rr_ReviewID := PInt (largest_id (reviews (db s)) + 1);
                      rr_Room_no := rno (vars s); rr_HotelID := hid (vars s) |} ]);
        flashes := flashes s |}).
Proof.
  intros H1. unfold record_review. unfold bind at 1, get_vars. rewrite H1.
  rewrite (bind_assoc (create_review _ _ _ _) (fun _ => recover_review_id _ _)).
  unfold bind at 1. rewrite recover_after_create. reflexivity.
Qed.

Lemma record_review_breakfast user Text s :
  py_eq (ReviewType (vars s)) (PInt 2) = true ->
  record_review user Text s
  = let d := with_reviews (db s)
               (reviews (db s) ++
                [ {| ReviewID := PInt (largest_id (reviews (db s)) + 1);
                     Rating := bfrate (vars s); TextComment := Text;
                     rev_CID := CID user; rev_InvoiceNo := inv_no (vars s) |} ]) in
    let g := set_ReviewIDtest (PInt (largest_id (reviews (db s)) + 1)) (vars s) in
    match bftype (vars s) with
    | Some t =>
        (Ok tt,
         {| vars := g;
            db := with_breakfast_reviews d
                    (breakfast_reviews (db s) ++
                     [ {| br_ReviewID := PInt (largest_id (reviews (db s)) + 1);
                          br_BType := t; br_HotelID := hid (vars s) |} ]);
            flashes := flashes s |})
    | None => (Raise (NameError "bftype"), {| vars := g; db := d; flashes := flashes s |})
    end.
Proof.
  intros H2. unfold record_review. unfold bind at 1, get_vars.
  rewrite (py_eq_2_1 _ H2), H2.
  rewrite (bind_assoc (create_review _ _ _ _) (fun _ => recover_review_id _ _)).
  unfold bind at 1. rewrite recover_after_create.
  cbv beta iota zeta delta [bind get_vars read_global ret raise].
  simpl. destruct (bftype (vars s)); reflexivity.
Qed.

Lemma record_review_service user Text s :
  py_eq (ReviewType (vars s)) (PInt 3) = true ->
  record_review user Text s
  = let d := with_reviews (db s)
               (reviews (db s) ++
                [ {| ReviewID := PInt (largest_id (reviews (db s)) + 1);
                     Rating := srate (vars s); TextComment := Text;
                     rev_CID := CID user; rev_InvoiceNo := inv_no (vars s) |} ]) in
    let g := set_ReviewIDtest (PInt (largest_id (reviews (db s)) + 1)) (vars s) in
    match stype (vars s) with
    | Some t =>
        (Ok tt,
         {| vars := g;
            db := with_service_reviews d
                    (service_reviews (db s) ++
                     [ {| sr_ReviewID := PInt (largest_id (reviews (db s)) + 1);
                          sr_sType := t; sr_HotelID := hid (vars s) |} ]);
            flashes := flashes s |})
    | None => (Raise (NameError "stype"), {| vars := g; db := d; flashes := flashes s |})
    end.
Proof.
  intros H3. unfold record_review. unfold bind at 1, get_vars.
  rewrite (py_eq_3_1 _ H3), (py_eq_3_2 _ H3), H3.
  rewrite (bind_assoc (create_review _ _ _ _) (fun _ => recover_review_id _ _)).
  unfold bind at 1. rewrite recover_after_create.
  cbv beta iota zeta delta [bind get_vars read_global ret raise].
  simpl. destruct (stype (vars s)); reflexivity.
Qed.

Lemma record_review_no_category user Text s :
  py_eq (ReviewType (vars s)) (PInt 1) = false ->
  py_eq (ReviewType (vars s)) (PInt 2) = false ->
  py_eq (ReviewType (vars s)) (PInt 3) = false ->
  record_review user Text s = (Ok tt, s).
Proof.
  intros H1 H2 H3. unfold record_review. unfold bind at 1, get_vars.
  by rewrite H1, H2, H3.
Qed.

(** *** The success view as a whole *)

Lemma rreview_unbound role user rq s :
  rtype (vars s) = None -> rreview role user rq s = (Raise (NameError "rtype"), s).
Proof.
  intros H. unfold rreview. unfold bind at 1, read_global. unfold bind at 1, get_vars.
  rewrite H. reflexivity.
Qed.

Lemma rreview_eq role user rq s :
  is_Some (rtype (vars s)) ->
  rreview role user rq s
  = let loc := tally (comment_field (vars s) ≫= fun field => form rq !! field)
                 (line_item_hits user (vars s) (db s)) (PStr "hi", 0) in
    if snd loc >? 0
    then (record_review user (fst loc) ;;; ret (success_page role)) s
    else (Ok (index_page role),
          {| vars := vars s; db := db s;
             flashes := flashes s ++ [(not_ordered_error, "danger"%string)] |}).
Proof.
  intros [t Ht]. unfold rreview. unfold bind at 1, read_global. unfold bind at 1, get_vars.
  rewrite Ht. unfold ret at 1. unfold bind at 1. rewrite verify_eq. simpl.
  destruct (tally _ _ _) as [Text SCounter]. simpl.
  destruct (SCounter >? 0); reflexivity.
Qed.

Lemma largest_id_bound (tbl : list writes_Review) (r : writes_Review) :
  In r tbl -> id_value (ReviewID r) <= largest_id tbl.
Proof.
  induction tbl as [|x tbl IH]; intros Hin; [destruct Hin|].
  simpl. destruct Hin as [->|Hin]; [lia|]. specialize (IH Hin). lia.
Qed.

Lemma new_review_id_fresh user g d text :
  Forall (fun r => ReviewID r <> ReviewID (new_review user g d text)) (reviews d).
Proof.
  apply List.Forall_forall. intros r Hin Heq.
  apply largest_id_bound in Hin. rewrite Heq in Hin. simpl in Hin. lia.
Qed.

Lemma rreview_hit role user rq s field text :
  is_Some (rtype (vars s)) ->
  ordered user (vars s) (db s) ->
  comment_field (vars s) = Some field ->
  form rq !! field = Some text ->
  rreview role user rq s
  = (record_review user (PStr text) ;;; ret (success_page role)) s.
Proof.
  intros Hbound Hord Hfield Htext. rewrite rreview_eq by exact Hbound.
  rewrite <- line_item_hits_ordered in Hord.
  rewrite Hfield. simpl. rewrite Htext.
  destruct (tally_hit text _ (PStr "hi", 0) Hord) as [HText Hcount].
  destruct (tally (Some text) (line_item_hits user (vars s) (db s)) (PStr "hi", 0))
    as [Text SCounter].
  simpl in *. subst Text.
  replace (SCounter >? 0) with true by (symmetry; apply Z.gtb_lt; lia).
  reflexivity.
Qed.

(** C5. Evaluating the success view in a freshly loaded module: the
    global [rtype] is not bound yet, the [print] that reads it stands
    before the first [try], and the NameError leaves the view. Nothing
    was flashed and nothing was stored. *)
Theorem rreview_fresh_module_raises
    (role : string) (user : User) (rq : request) (d : database)
    (msgs : list (string * string)) :
  rreview role user rq {| vars := module_globals; db := d; flashes := msgs |}
  = (Raise (NameError "rtype"), {| vars := module_globals; db := d; flashes := msgs |}).
Proof. by apply rreview_unbound. Qed.

(** C3. In a freshly loaded module no category is active and no
    sub-type is stored, so nothing matches a line item of any invoice;
    the success view does not get as far as the message to review only
    what was ordered: the NameError for [rtype] leaves it first, nothing
    is flashed and the tables are left as they were. *)
Theorem rreview_fresh_module_no_message
    (role : string) (user : User) (rq : request) (d : database)
    (msgs : list (string * string)) :
  let s := {| vars := module_globals; db := d; flashes := msgs |} in
  ~ ordered user (vars s) (db s)
  /\ fst (rreview role user rq s) = Raise (NameError "rtype")
  /\ fst (rreview role user rq s) <> Ok (index_page role)
  /\ flashes (snd (rreview role user rq s)) = msgs
  /\ db (snd (rreview role user rq s)) = d.
Proof.
  intros s. subst s.
  rewrite (rreview_unbound role user rq
             {| vars := module_globals; db := d; flashes := msgs |} eq_refl).
  simpl. split; [|by repeat split].
  intros [[H _]|[[H _]|[H _]]]; discriminate H.
Qed.

(** Once the sub-types are stored, a submission whose active category's
    sub-type matches no line item of the selected invoice of the session
    user gets the index page with the message to review only what was
    ordered; the tables and the module variables are left as they
    were. *)
Theorem rreview_rejects_unordered
    (role : string) (user : User) (rq : request) (s : state) :
  is_Some (rtype (vars s)) ->
  ~ ordered user (vars s) (db s) ->
  rreview role user rq s
  = (Ok (index_page role),
     {| vars := vars s; db := db s;
        flashes := flashes s ++ [(not_ordered_error, "danger"%string)] |}).
Proof.
  intros Hbound Hno. rewrite rreview_eq by exact Hbound.
  rewrite <- line_item_hits_ordered in Hno.
  rewrite (tally_no_hit _ _ _ Hno). reflexivity.
Qed.

Lemma rreview_rejects_unordered_witness :
  is_Some (rtype (vars rated_english))
  /\ ~ ordered alice (vars rated_english) (db rated_english)
  /\ rreview "customer" alice (post_comment "description2" "great food") rated_english
     = (Ok (index_page "customer"),
        {| vars := vars rated_english; db := hotel_db;
           flashes := [(not_ordered_error, "danger"%string)] |}).
Proof.
  assert (H1 : is_Some (rtype (vars rated_english))) by (eexists; reflexivity).
  assert (H2 : ~ ordered alice (vars rated_english) (db rated_english)).
  { rewrite <- line_item_hits_ordered. vm_compute. intros [H|[]]. discriminate H. }
  split; [exact H1|]. split; [exact H2|].
  exact (rreview_rejects_unordered "customer" alice
           (post_comment "description2" "great food") rated_english H1 H2).
Defined.

(** The claim C2 as it is written fails when the request carries no
    comment for the active category: the continental breakfast is a line
    item of Alice's invoice, the form is empty, and the view answers with
    the not-ordered message and stores nothing. *)
Lemma rreview_ordered_without_comment :
  is_Some (rtype (vars rated_continental))
  /\ ordered alice (vars rated_continental) (db rated_continental)
  /\ rreview "customer" alice get_success rated_continental
     = (Ok (index_page "customer"),
        {| vars := vars rated_continental; db := hotel_db;
           flashes := [(not_ordered_error, "danger"%string)] |})
  /\ reviews (db (snd (rreview "customer" alice get_success rated_continental))) = []
  /\ breakfast_reviews (db (snd (rreview "customer" alice get_success rated_continental))) = [].
Proof.
  split; [eexists; reflexivity|]. split.
  { rewrite <- line_item_hits_ordered. vm_compute. by left. }
  split; [|split]; reflexivity.
Qed.

(** C2 (amended). Once the sub-types are stored, a submission whose
    active category's sub-type matches a line item of the selected
    invoice of the session user, and whose form carries the comment field
    of that category, gets the success page; exactly one Review row is
    appended (rating of the category, the comment, the customer, the
    invoice, a fresh id), and exactly one link row is appended to the
    link table of the category, carrying that Review's id, while the
    other two link tables stay as they were. *)
Theorem rreview_records_ordered
    (role : string) (user : User) (rq : request) (s : state) (field text : string) :
  is_Some (rtype (vars s)) ->
  ordered user (vars s) (db s) ->
  comment_field (vars s) = Some field ->
  form rq !! field = Some text ->
  let g := vars s in
  let d := db s in
  let rv := new_review user g d text in
  let d' := db (snd (rreview role user rq s)) in
  fst (rreview role user rq s) = Ok (success_page role)
  /\ reviews d' = reviews d ++ [rv]
  /\ Forall (fun r => ReviewID r <> ReviewID rv) (reviews d)
  /\ (py_eq (ReviewType g) (PInt 1) = true ->
        room_reviews d' = room_reviews d ++
          [ {| rr_ReviewID := ReviewID rv; rr_Room_no := rno g; rr_HotelID := hid g |} ]
        /\ breakfast_reviews d' = breakfast_reviews d
        /\ service_reviews d' = service_reviews d)
  /\ (py_eq (ReviewType g) (PInt 2) = true ->
        exists t, bftype g = Some t
        /\ breakfast_reviews d' = breakfast_reviews d ++
             [ {| br_ReviewID := ReviewID rv; br_BType := t; br_HotelID := hid g |} ]
        /\ room_reviews d' = room_reviews d
        /\ service_reviews d' = service_reviews d)
  /\ (py_eq (ReviewType g) (PInt 3) = true ->
        exists t, stype g = Some t
        /\ service_reviews d' = service_reviews d ++
             [ {| sr_ReviewID := ReviewID rv; sr_sType := t; sr_HotelID := hid g |} ]
        /\ room_reviews d' = room_reviews d
        /\ breakfast_reviews d' = breakfast_reviews d).
Proof.
  intros Hbound Hord Hfield Htext g d rv d'.
  assert (Hfresh : Forall (fun r => ReviewID r <> ReviewID rv) (reviews d))
    by apply new_review_id_fresh.
  subst d' rv g d.
  rewrite (rreview_hit role user rq s field text Hbound Hord Hfield Htext).
  unfold bind. unfold new_review, active_rating in *.
  destruct Hord as [[H1 _]|[[H2 Hb]|[H3 Hs]]].
  - rewrite (record_review_room user (PStr text) s H1).
    rewrite H1 in *. rewrite (py_eq_1_2 _ H1), (py_eq_1_3 _ H1). simpl.
    repeat split; try discriminate; try reflexivity; done.
  - rewrite (record_review_breakfast user (PStr text) s H2).
    destruct Hb as (q & food & t & _ & _ & _ & Ht & _). rewrite Ht.
    rewrite H2, (py_eq_2_1 _ H2), (py_eq_2_3 _ H2) in *. simpl.
    repeat split; try discriminate; try reflexivity; try done.
    intros _. exists t. by repeat split.
  - rewrite (record_review_service user (PStr text) s H3).
    destruct Hs as (q & ser & t & _ & _ & _ & Ht & _). rewrite Ht.
    rewrite H3, (py_eq_3_1 _ H3), (py_eq_3_2 _ H3) in *. simpl.
    repeat split; try discriminate; try reflexivity; try done.
    intros _. exists t. by repeat split.
Qed.

Lemma rreview_records_ordered_witness :
  let rq := post_comment "description2" "great food" in
  is_Some (rtype (vars rated_continental))
  /\ ordered alice (vars rated_continental) (db rated_continental)
  /\ comment_field (vars rated_continental) = Some "description2"%string
  /\ form rq !! "description2"%string = Some "great food"%string
  /\ fst (rreview "customer" alice rq rated_continental) = Ok (success_page "customer")
  /\ reviews (db (snd (rreview "customer" alice rq rated_continental)))
     = [ {| ReviewID := PInt 1; Rating := PInt 4; TextComment := PStr "great food";
            rev_CID := PInt 7; rev_InvoiceNo := PStr "1" |} ]
  /\ breakfast_reviews (db (snd (rreview "customer" alice rq rated_continental)))
     = [ {| br_ReviewID := PInt 1; br_BType := PStr "continental";
            br_HotelID := PStr "0" |} ].
Proof.
  intros rq.
  assert (H1 : is_Some (rtype (vars rated_continental))) by (eexists; reflexivity).
  assert (H2 : ordered alice (vars rated_continental) (db rated_continental)).
  { rewrite <- line_item_hits_ordered. vm_compute. by left. }
  assert (H3 : comment_field (vars rated_continental) = Some "description2"%string)
    by reflexivity.
  assert (H4 : form rq !! "description2"%string = Some "great food"%string)
    by reflexivity.
  destruct (rreview_records_ordered "customer" alice rq rated_continental
              "description2" "great food" H1 H2 H3 H4)
    as (Hpage & Hrev & _ & _ & Hbf & _).
  destruct (Hbf eq_refl) as (t & Ht & Hlink & _).
  assert (t = PStr "continental") as -> by (vm_compute in Ht; congruence).
  split; [exact H1|]. split; [exact H2|]. split; [exact H3|]. split; [exact H4|].
  split; [exact Hpage|]. split; [exact Hrev | exact Hlink].
Defined.

(** C4. Whatever the request and the state, every link row the success
    view appends, to any of the three link tables, carries the id of a
    row that is in the Review table when the view is done: the view
    inserts the Review, recovers its id with the re-query, and passes
    that id to the link-creation call. *)
Theorem rreview_links_reference_reviews
    (role : string) (user : User) (rq : request) (s : state) :
  let d := db s in
  let d' := db (snd (rreview role user rq s)) in
  exists new_rm new_bf new_sv,
    room_reviews d' = room_reviews d ++ new_rm
    /\ breakfast_reviews d' = breakfast_reviews d ++ new_bf
    /\ service_reviews d' = service_reviews d ++ new_sv
    /\ Forall (fun l => exists r, In r (reviews d') /\ ReviewID r = rr_ReviewID l) new_rm
    /\ Forall (fun l => exists r, In r (reviews d') /\ ReviewID r = br_ReviewID l) new_bf
    /\ Forall (fun l => exists r, In r (reviews d') /\ ReviewID r = sr_ReviewID l) new_sv.
Proof.
  intros d d'. subst d d'.
  assert (Hnone : forall d0 : database,
            room_reviews d0 = room_reviews (db s) ->
            breakfast_reviews d0 = breakfast_reviews (db s) ->
            service_reviews d0 = service_reviews (db s) ->
            exists new_rm new_bf new_sv,
              room_reviews d0 = room_reviews (db s) ++ new_rm
              /\ breakfast_reviews d0 = breakfast_reviews (db s) ++ new_bf
              /\ service_reviews d0 = service_reviews (db s) ++ new_sv
              /\ Forall (fun l => exists r, In r (reviews d0)
                                           /\ ReviewID r = rr_ReviewID l) new_rm
              /\ Forall (fun l => exists r, In r (reviews d0)
                                           /\ ReviewID r = br_ReviewID l) new_bf
              /\ Forall (fun l => exists r, In r (reviews d0)
                                           /\ ReviewID r = sr_ReviewID l) new_sv).
  { intros d0 Hrm Hbf Hsv. exists [], [], [].
    rewrite Hrm, Hbf, Hsv, !app_nil_r. repeat split; constructor. }
  destruct (rtype (vars s)) as [t|] eqn:Hrt.
  2:{ rewrite rreview_unbound by exact Hrt. by apply Hnone. }
  rewrite rreview_eq by (rewrite Hrt; eauto). cbv zeta.
  destruct (snd (tally _ _ _) >? 0).
  2:{ by apply Hnone. }
  unfold bind.
  set (Text := fst (tally _ _ _)). clearbody Text.
  destruct (py_eq (ReviewType (vars s)) (PInt 1)) eqn:H1.
  { rewrite (record_review_room user Text s H1). simpl.
    eexists [_], [], []. rewrite !app_nil_r.
    repeat split; try constructor; try constructor.
    eexists. split; [apply in_or_app; right; left; reflexivity|reflexivity]. }
  destruct (py_eq (ReviewType (vars s)) (PInt 2)) eqn:H2.
  { rewrite (record_review_breakfast user Text s H2). cbv zeta.
    destruct (bftype (vars s)).
    - simpl. eexists [], [_], []. rewrite !app_nil_r.
      repeat split; try constructor; try constructor.
      eexists. split; [apply in_or_app; right; left; reflexivity|reflexivity].
    - apply (Hnone (with_reviews (db s) _)); reflexivity. }
  destruct (py_eq (ReviewType (vars s)) (PInt 3)) eqn:H3.
  { rewrite (record_review_service user Text s H3). cbv zeta.
    destruct (stype (vars s)).
    - simpl. eexists [], [], [_]. rewrite !app_nil_r.
      repeat split; try constructor; try constructor.
      eexists. split; [apply in_or_app; right; left; reflexivity|reflexivity].
    - apply (Hnone (with_reviews (db s) _)); reflexivity. }
  rewrite (record_review_no_category user Text s H1 H2 H3). simpl.
  by apply Hnone.
Qed.

(** *** The rating view *)

Lemma rating_eq role rq s data rate_ RevType roomtype breaktype servtype :
  json rq = Some data ->
  data !! "radioValue"%string = Some rate_ ->
  data !! "ReviewType"%string = Some RevType ->
  data !! "rootype"%string = Some roomtype ->
  data !! "breakftype"%string = Some breaktype ->
  data !! "servtype"%string = Some servtype ->
  get_rating_and_global role rq s
  = (Ok (JsonDump [[RevType]]),
     {| vars :=
          set_stype servtype (set_bftype breaktype (set_rtype roomtype
            (set_ReviewType RevType
               (let g := set_rate rate_ (vars s) in
                if py_eq RevType (PInt 1) then set_rrate rate_ g
                else if py_eq RevType (PInt 2) then set_bfrate rate_ g
                else if py_eq RevType (PInt 3) then set_srate rate_ g
                else g))));
        db := db s; flashes := flashes s |}).
Proof.
  intros Hj Hrate Hrev Hroom Hbreak Hserv.
  cbv beta iota zeta delta [get_rating_and_global try_except bind get_json getitem].
  rewrite Hj. cbv beta iota delta [ret]. rewrite Hrate.
  cbv beta iota delta [assign]. rewrite Hrev.
  destruct (py_eq RevType (PInt 1)); [|destruct (py_eq RevType (PInt 2));
    [|destruct (py_eq RevType (PInt 3))]];
    cbv beta iota delta [assign ret]; rewrite Hroom, Hbreak, Hserv; reflexivity.
Qed.

(** C8. A rating request whose JSON object has the five fields, with
    ReviewType 1, 2 or 3, is answered with the JSON text echoing the
    ReviewType; radioValue becomes the room rating for 1, the breakfast
    rating for 2 and the service rating for 3, the other two ratings stay,
    and the three sub-types and the category are stored. *)
Theorem rating_stores_under_category
    (role : string) (rq : request) (s : state) (data : gmap string pyval)
    (rate_ RevType roomtype breaktype servtype : pyval) :
  json rq = Some data ->
  data !! "radioValue"%string = Some rate_ ->
  data !! "ReviewType"%string = Some RevType ->
  data !! "rootype"%string = Some roomtype ->
  data !! "breakftype"%string = Some breaktype ->
  data !! "servtype"%string = Some servtype ->
  RevType = PInt 1 \/ RevType = PInt 2 \/ RevType = PInt 3 ->
  let g := vars s in
  let g' := vars (snd (get_rating_and_global role rq s)) in
  fst (get_rating_and_global role rq s) = Ok (JsonDump [[RevType]])
  /\ (RevType = PInt 1 -> rrate g' = rate_ /\ bfrate g' = bfrate g /\ srate g' = srate g)
  /\ (RevType = PInt 2 -> bfrate g' = rate_ /\ rrate g' = rrate g /\ srate g' = srate g)
  /\ (RevType = PInt 3 -> srate g' = rate_ /\ rrate g' = rrate g /\ bfrate g' = bfrate g)
  /\ ReviewType g' = RevType
  /\ rtype g' = Some roomtype /\ bftype g' = Some breaktype /\ stype g' = Some servtype.
Proof.
  intros Hj Hrate Hrev Hroom Hbreak Hserv Hcat g g'. subst g g'.
  rewrite (rating_eq role rq s data rate_ RevType roomtype breaktype servtype)
    by assumption.
  destruct Hcat as [-> | [-> | ->]]; simpl; repeat split; intros; try discriminate; reflexivity.
Qed.

Lemma rating_stores_under_category_witness :
  let rq := post_rating (PInt 2) (PStr "continental") in
  let g' := vars (snd (get_rating_and_global "customer" rq fresh_state)) in
  fst (get_rating_and_global "customer" rq fresh_state) = Ok (JsonDump [[PInt 2]])
  /\ bfrate g' = PInt 4
  /\ ReviewType g' = PInt 2
  /\ bftype g' = Some (PStr "continental").
Proof.
  intros rq g'.
  destruct (rating_stores_under_category "customer" rq fresh_state
              (rating_payload (PInt 2) (PStr "continental"))
              (PInt 4) (PInt 2) (PStr "double") (PStr "continental") (PStr "sno"))
    as (H1 & _ & H2 & _ & H3 & _ & H4 & _).
  - reflexivity.
  - reflexivity.
  - reflexivity.
  - reflexivity.
  - reflexivity.
  - reflexivity.
  - right. left. reflexivity.
  - destruct (H2 eq_refl) as (Hbf & _).
    split; [exact H1|]. split; [exact Hbf|]. split; [exact H3 | exact H4].
Defined.

(** The claim C10 as it is written fails for the JSON value [true]: it
    is none of the numbers 1, 2 and 3, and Python's [True == 1] makes the
    view store the rating as the room rating. *)
Lemma rating_true_counts_as_room :
  let rq := post_rating (PBool true) (PStr "continental") in
  let g' := vars (snd (get_rating_and_global "customer" rq fresh_state)) in
  PBool true <> PInt 1 /\ PBool true <> PInt 2 /\ PBool true <> PInt 3
  /\ rrate (vars fresh_state) = PStr "-1"
  /\ rrate g' = PInt 4
  /\ rrate g' <> rrate (vars fresh_state).
Proof.
  simpl. repeat split; try discriminate; reflexivity.
Qed.

(** C10 (amended). A rating request whose JSON object has the five
    fields, with a ReviewType that does not compare equal to 1, 2 or 3
    (the test is Python's [==], under which the JSON value [true] equals
    1), still succeeds: it is answered with status 200 and the JSON text
    echoing the ReviewType, the three category ratings stay as they were,
    and the three sub-types and the unrecognized ReviewType are stored. *)
Theorem rating_unrecognized_category
    (role : string) (rq : request) (s : state) (data : gmap string pyval)
    (rate_ RevType roomtype breaktype servtype : pyval) :
  json rq = Some data ->
  data !! "radioValue"%string = Some rate_ ->
  data !! "ReviewType"%string = Some RevType ->
  data !! "rootype"%string = Some roomtype ->
  data !! "breakftype"%string = Some breaktype ->
  data !! "servtype"%string = Some servtype ->
  py_eq RevType (PInt 1) = false ->
  py_eq RevType (PInt 2) = false ->
  py_eq RevType (PInt 3) = false ->
  let g := vars s in
  let g' := vars (snd (get_rating_and_global role rq s)) in
  fst (get_rating_and_global role rq s) = Ok (JsonDump [[RevType]])
  /\ status_of (JsonDump [[RevType]]) = 200
  /\ rrate g' = rrate g /\ bfrate g' = bfrate g /\ srate g' = srate g
  /\ ReviewType g' = RevType
  /\ rtype g' = Some roomtype /\ bftype g' = Some breaktype /\ stype g' = Some servtype.
Proof.
  intros Hj Hrate Hrev Hroom Hbreak Hserv H1 H2 H3 g g'. subst g g'.
  rewrite (rating_eq role rq s data rate_ RevType roomtype breaktype servtype)
    by assumption.
  rewrite H1, H2, H3. simpl. repeat split.
Qed.

Lemma rating_unrecognized_category_witness :
  let rq := post_rating (PInt 9) (PStr "continental") in
  let g' := vars (snd (get_rating_and_global "customer" rq fresh_state)) in
  fst (get_rating_and_global "customer" rq fresh_state) = Ok (JsonDump [[PInt 9]])
  /\ rrate g' = PStr "-1" /\ bfrate g' = PStr "-1" /\ srate g' = PStr "-1"
  /\ ReviewType g' = PInt 9.
Proof.
  intros rq g'.
  destruct (rating_unrecognized_category "customer" rq fresh_state
              (rating_payload (PInt 9) (PStr "continental"))
              (PInt 4) (PInt 9) (PStr "double") (PStr "continental") (PStr "sno"))
    as (H1 & _ & H2 & H3 & H4 & H5 & _).
  - reflexivity.
  - reflexivity.
  - reflexivity.
  - reflexivity.
  - reflexivity.
  - reflexivity.
  - reflexivity.
  - reflexivity.
  - reflexivity.
  - split; [exact H1|]. split; [exact H2|]. split; [exact H3|].
    split; [exact H4 | exact H5].
Defined.

(** *** What the handlers leave alone *)

Lemma same_choice_refl g : same_choice g g.
Proof. by repeat split. Qed.

Lemma same_choice_trans g1 g2 g3 :
  same_choice g1 g2 -> same_choice g2 g3 -> same_choice g1 g3.
Proof.
  intros (A1 & A2 & A3 & A4) (B1 & B2 & B3 & B4).
  repeat split; congruence.
Qed.

Lemma keeps_ret {A} (a : A) : keeps_choice (ret a).
Proof. intros s. apply same_choice_refl. Qed.

Lemma keeps_raise {A} (e : exn) : keeps_choice (@raise A e).
Proof. intros s. apply same_choice_refl. Qed.

Lemma keeps_get_vars : keeps_choice get_vars.
Proof. intros s. apply same_choice_refl. Qed.

Lemma keeps_get_db : keeps_choice get_db.
Proof. intros s. apply same_choice_refl. Qed.

Lemma keeps_put_db d : keeps_choice (put_db d).
Proof. intros s. apply same_choice_refl. Qed.

Lemma keeps_flash m c : keeps_choice (flash m c).
Proof. intros s. apply same_choice_refl. Qed.

Lemma keeps_assign f : (forall g, same_choice g (f g)) -> keeps_choice (assign f).
Proof. intros H s. apply H. Qed.

Lemma keeps_bind {A B} (m : M A) (k : A -> M B) :
  keeps_choice m -> (forall a, keeps_choice (k a)) -> keeps_choice (bind m k).
Proof.
  intros Hm Hk s. unfold bind. specialize (Hm s).
  destruct (m s) as [[a|e] s1]; simpl in *; [|exact Hm].
  eapply same_choice_trans; [exact Hm|apply Hk].
Qed.

Lemma keeps_try_except {A} (m : M A) (h : exn -> M A) :
  keeps_choice m -> (forall e, keeps_choice (h e)) -> keeps_choice (try_except m h).
Proof.
  intros Hm Hh s. unfold try_except. specialize (Hm s).
  destruct (m s) as [[a|e] s1]; simpl in *; [exact Hm|].
  eapply same_choice_trans; [exact Hm|apply Hh].
Qed.

Lemma keeps_getitem {V} (d : gmap string V) key : keeps_choice (getitem d key).
Proof. unfold getitem. destruct (d !! key); [apply keeps_ret|apply keeps_raise]. Qed.

Lemma keeps_read_global field name : keeps_choice (read_global field name).
Proof.
  unfold read_global. apply keeps_bind; [apply keeps_get_vars|].
  intros g. destruct (field g); [apply keeps_ret|apply keeps_raise].
Qed.

Lemma keeps_for_each {A B} (rows : list A) (body : A -> B -> M B) :
  (forall x loc, keeps_choice (body x loc)) ->
  forall loc, keeps_choice (for_each rows body loc).
Proof.
  intros Hbody. induction rows as [|x rows IH]; intros loc; simpl.
  - apply keeps_ret.
  - apply keeps_bind; [apply Hbody|apply IH].
Qed.

Lemma keeps_for_loop {A B} (rows : list A) (body : A -> B -> M (response + B)) :
  (forall x loc, keeps_choice (body x loc)) ->
  forall loc, keeps_choice (for_loop rows body loc).
Proof.
  intros Hbody. induction rows as [|x rows IH]; intros loc; simpl.
  - apply keeps_ret.
  - apply keeps_bind; [apply Hbody|].
    intros [resp|loc']; [apply keeps_ret|apply IH].
Qed.

Ltac keeps_step :=
  first
    [ apply keeps_ret | apply keeps_raise | apply keeps_get_vars | apply keeps_get_db
    | apply keeps_put_db | apply keeps_flash | apply keeps_getitem
    | apply keeps_read_global
    | apply keeps_assign; intros ?; by repeat split
    | apply keeps_bind; [|intros ?]
    | apply keeps_try_except; [|intros ?]
    | apply keeps_for_each; intros ? ?
    | apply keeps_for_loop; intros ? ?
    | match goal with
      | |- keeps_choice (if ?b then _ else _) => destruct b
      | |- keeps_choice (match ?x with _ => _ end) => destruct x
      end ].

Lemma keeps_pick_res role user rq : keeps_choice (pick_res role user rq).
Proof. unfold pick_res. repeat keeps_step. Qed.

Lemma keeps_get_reserv role user rq : keeps_choice (get_reserv role user rq).
Proof. unfold get_reserv, get_json. repeat keeps_step. Qed.

Lemma keeps_rreview role user rq : keeps_choice (rreview role user rq).
Proof.
  unfold rreview, verify, verify_room, verify_breakfast, verify_service, check_item,
    processing_failed, record_review, recover_review_id, create_review,
    create_rmreview, create_brkreview, create_servreview.
  repeat keeps_step.
Qed.

Lemma subtypes_stored_same g g' :
  same_choice g g' -> subtypes_stored g -> subtypes_stored g'.
Proof.
  intros (H1 & H2 & H3 & H4) Hs. unfold subtypes_stored. by rewrite H1, H2, H3, H4.
Qed.

(** The rating view raises nothing, whatever the request. *)
Lemma rating_never_raises role rq s :
  exists r, fst (get_rating_and_global role rq s) = Ok r.
Proof.
  unfold get_rating_and_global, try_except.
  destruct (bind _ _ s) as [[r|e] s']; simpl; eauto.
Qed.

Lemma rating_stores_or_keeps role rq s :
  subtypes_stored (vars s) ->
  subtypes_stored (vars (snd (get_rating_and_global role rq s))).
Proof.
  intros Hs.
  cbv beta iota zeta delta
    [get_rating_and_global try_except bind get_json getitem ret raise assign].
  destruct (json rq) as [data|]; [|exact Hs].
  repeat match goal with
         | |- context [match ?d !! ?k with _ => _ end] => destruct (d !! k)
         | |- context [if py_eq ?a ?b then _ else _] => destruct (py_eq a b)
         end;
    simpl;
    first [ exact Hs
          | apply (subtypes_stored_same (vars s)); [by repeat split | exact Hs]
          | right; repeat split; eauto ].
Qed.

(** From a freshly loaded module, the handlers only reach states in which
    either no category was ever chosen or all three sub-types are bound. *)
Lemma reachable_subtypes_stored g : reachable g -> subtypes_stored g.
Proof.
  induction 1 as [|role s r s' _ IH Hrun|role user rq s r s' _ IH Hrun
                  |role rq s r s' _ IH Hrun
                  |role user rq s r s' _ IH Hrun|role user rq s r s' _ IH Hrun].
  - left. by repeat split.
  - unfold feedback, ret in Hrun. by inversion Hrun; subst.
  - apply (subtypes_stored_same (vars s)); [|exact IH].
    pose proof (keeps_pick_res role user rq s) as H. by rewrite Hrun in H.
  - pose proof (rating_stores_or_keeps role rq s IH) as H. by rewrite Hrun in H.
  - apply (subtypes_stored_same (vars s)); [|exact IH].
    pose proof (keeps_get_reserv role user rq s) as H. by rewrite Hrun in H.
  - apply (subtypes_stored_same (vars s)); [|exact IH].
    pose proof (keeps_rreview role user rq s) as H. by rewrite Hrun in H.
Qed.

(** In a reachable state with category 1, 2 or 3 the global [rtype] is
    bound, so the success view gets past its first lines. *)
Lemma reachable_category_bound g n :
  reachable g -> py_eq (ReviewType g) (PInt n) = true -> is_Some (rtype g).
Proof.
  intros Hr Hcat. destruct (reachable_subtypes_stored g Hr) as [(H & _)|(H & _)].
  - rewrite H in Hcat. discriminate Hcat.
  - exact H.
Qed.

End FeedbackSpec.

(** ** More about the gate, login and logout *)

Module AuthExtra.

Import Auth Examples.

Lemma flash_current_user m c w : current_user (flash m c w) = current_user w.
Proof. reflexivity. Qed.

Lemma user_loader_head tbl email user rest :
  select_by_email tbl email = user :: rest -> user_loader tbl email = Some user.
Proof. unfold user_loader. by intros ->. Qed.

Lemma select_by_email_first tbl email :
  match select_by_email tbl email with
  | u :: _ =>
      Email u = email
      /\ exists before after,
           tbl = before ++ u :: after /\ Forall (fun v => Email v <> email) before
  | [] => Forall (fun v => Email v <> email) tbl
  end.
Proof.
  induction tbl as [|x tbl IH]; simpl; [constructor|].
  destruct (String.eqb (Email x) email) eqn:Hx.
  - apply String.eqb_eq in Hx. split; [exact Hx|]. exists [], tbl. split; [reflexivity|constructor].
  - apply String.eqb_neq in Hx.
    destruct (select_by_email tbl email) as [|u rest].
    + by constructor.
    + destruct IH as (He & before & after & -> & Hb). split; [exact He|].
      exists (x :: before), after. split; [reflexivity|by constructor].
Qed.

(** X1. The decorated view reaches the wrapped view exactly when the
    session holds a user whose role tag is among the permitted ones;
    every other request is answered by the unauthorized page with
    status 401. *)
Theorem require_role_grants_iff
    (roles : role_arg) (kwargss : gmap string pyval) (w : world)
    (args : list pyval) (kwargs : gmap string pyval) :
  ((exists a k, require_role roles kwargss w args kwargs = CallView a k)
   <-> exists user, current_user w = Some user /\ role user ∈ permitted roles)
  /\ ((forall a k, require_role roles kwargss w args kwargs <> CallView a k)
      <-> forall (R : Type) (func : list pyval -> gmap string pyval -> R),
            dispatch func (require_role roles kwargss w args kwargs)
            = inr (Rendered "unauthorized.html" [] [] 401)).
Proof.
  split.
  - unfold require_role, login_required, wrapper. split.
    + intros (a & k & H). destruct (current_user w) as [user|]; [|discriminate].
      exists user. split; [reflexivity|].
      destruct (isinstance_list roles && role_in (role user) roles) eqn:Hin.
      * apply andb_true_iff in Hin as [_ Hin]. by apply AuthSpec.role_in_spec.
      * destruct (role_eq (role user) roles) eqn:Heq; [|discriminate].
        by apply AuthSpec.role_eq_spec.
    + intros (user & -> & Hin).
      destruct (AuthSpec.permitted_spec _ _ Hin) as [H|H]; rewrite H; eauto.
      destruct (isinstance_list roles && role_in (role user) roles); eauto.
  - split.
    + intros Hno R func.
      destruct (require_role roles kwargss w args kwargs) as [a k|]; [|reflexivity].
      by destruct (Hno a k).
    + intros H a k Hcall. specialize (H unit (fun _ _ => tt)).
      rewrite Hcall in H. discriminate H.
Qed.

(** X2. When the role-injection flag is missing or false and access is
    granted, the wrapped view gets the positional and keyword arguments
    of the call unchanged. *)
Theorem require_role_without_getrole
    (roles : role_arg) (kwargss : gmap string pyval) (w : world) (user : User)
    (args : list pyval) (kwargs : gmap string pyval) :
  current_user w = Some user ->
  truthy (default (PBool false) (kwargss !! "getrole"%string)) = false ->
  role user ∈ permitted roles ->
  require_role roles kwargss w args kwargs = CallView args kwargs.
Proof.
  intros Hcu Hflag Hin. unfold require_role, login_required, wrapper.
  rewrite Hcu, Hflag.
  destruct (AuthSpec.permitted_spec _ _ Hin) as [H|H]; rewrite H; [reflexivity|].
  destruct (isinstance_list roles && role_in (role user) roles); reflexivity.
Qed.

Lemma require_role_without_getrole_witness :
  require_role (RoleStr "customer") ∅ alice_world [PInt 42] ∅ = CallView [PInt 42] ∅.
Proof.
  apply (require_role_without_getrole (RoleStr "customer") ∅ alice_world alice).
  - reflexivity.
  - reflexivity.
  - apply (bool_decide_unpack _). vm_compute. exact I.
Defined.

(** X3. A single role string restricts a view exactly like the list
    that holds only that role. *)
Theorem require_role_single_role_as_list
    (s : string) (kwargss : gmap string pyval) (w : world)
    (args : list pyval) (kwargs : gmap string pyval) :
  require_role (RoleList [s]) kwargss w args kwargs
  = require_role (RoleStr s) kwargss w args kwargs.
Proof.
  unfold require_role, login_required, wrapper.
  destruct (current_user w) as [user|]; [|reflexivity]. simpl.
  rewrite orb_false_r. destruct (String.eqb (role user) s); reflexivity.
Qed.

(** X5. Whatever [require_role] lets through, [require_login] lets
    through as well, with the arguments of the call as they came. *)
Theorem require_role_implies_login
    (roles : role_arg) (kwargss : gmap string pyval) (w : world)
    (args a : list pyval) (kwargs k : gmap string pyval) :
  require_role roles kwargss w args kwargs = CallView a k ->
  require_login w args kwargs = CallView args kwargs.
Proof.
  unfold require_role, require_login, login_required.
  destruct (current_user w); [reflexivity|discriminate].
Qed.

Lemma require_role_implies_login_witness :
  require_login alice_world [PInt 42] ∅ = CallView [PInt 42] ∅.
Proof.
  apply (require_role_implies_login staff_roles with_getrole alice_world
           [PInt 42] [PStr "customer"] ∅ ∅).
  reflexivity.
Defined.

Section LoginExtra.

Variable check_password_hash : string -> string -> bool.
Variable str_exn : exn -> string.

(** X6. The login view answers with the redirect to the index exactly
    when the client is logged in once the request is done. *)
Theorem login_redirects_iff_logged_in (rq : request) (w : world) :
  fst (login check_password_hash str_exn rq w) = Redirect "index"
  <-> is_Some (current_user (snd (login check_password_hash str_exn rq w))).
Proof.
  unfold Auth.login.
  destruct (current_user w) as [cu|] eqn:Hcu.
  { rewrite bool_decide_eq_true_2 by eauto. simpl. rewrite Hcu. split; eauto. }
  rewrite bool_decide_eq_false_2 by (intros [? ?]; discriminate).
  assert (Hno : ~ is_Some (current_user w)) by (rewrite Hcu; intros [? ?]; discriminate).
  destruct (String.eqb (method rq) "GET"); [simpl; split; [discriminate|done]|].
  destruct (form rq !! "email"%string) as [email|];
    [|simpl; split; [discriminate|done]].
  destruct (select_by_email (users w) email) as [|user rest] eqn:Hsel;
    [simpl; split; [discriminate|done]|].
  destruct (form rq !! "pw"%string) as [pw|]; [|simpl; split; [discriminate|done]].
  destruct (check_password_hash (password user) pw);
    [|simpl; split; [discriminate|done]].
  simpl. split; [intros _|reflexivity].
  unfold current_user, login_user. simpl.
  rewrite (AuthSpec.select_by_email_head _ _ _ _ Hsel).
  rewrite (user_loader_head _ _ _ _ Hsel). eauto.
Qed.

(** X8. A login request from a client that is not logged in that lacks
    the email field, or names an existing user and lacks the password
    field, gets the login page with status 401 and a message that starts
    with "Registration failed"; the session stays as it was. *)
Theorem login_missing_field (rq : request) (w : world) :
  current_user w = None ->
  method rq <> "GET"%string ->
  form rq !! "email"%string = None
  \/ (exists email user rest,
        form rq !! "email"%string = Some email
        /\ select_by_email (users w) email = user :: rest
        /\ form rq !! "pw"%string = None) ->
  exists key,
    login check_password_hash str_exn rq w
    = (login_page 401,
       {| users := users w; session_uid := session_uid w;
          flashed := flashed w ++ [(("Registration failed: " ++ str_exn (KeyError key))%string,
                                    "danger"%string)] |}).
Proof.
  intros Hcu Hm Hmiss. unfold Auth.login.
  rewrite Hcu. rewrite bool_decide_eq_false_2 by (intros [? ?]; discriminate).
  apply String.eqb_neq in Hm. rewrite Hm.
  destruct Hmiss as [He|(email & user & rest & He & Hsel & Hp)].
  - rewrite He. by exists "email"%string.
  - rewrite He, Hsel, Hp. by exists "pw"%string.
Qed.

(** X9. The login view never changes the user table, and it changes the
    identity kept in the session only to the submitted email of a row
    of the table whose stored hash matches the submitted password. *)
Theorem login_session_sound (rq : request) (w : world) :
  users (snd (login check_password_hash str_exn rq w)) = users w
  /\ (session_uid (snd (login check_password_hash str_exn rq w)) = session_uid w
      \/ exists user pw,
           In user (users w)
           /\ form rq !! "email"%string = Some (Email user)
           /\ form rq !! "pw"%string = Some pw
           /\ check_password_hash (password user) pw = true
           /\ session_uid (snd (login check_password_hash str_exn rq w)) = Some (Email user)).
Proof.
  unfold Auth.login.
  destruct (bool_decide (is_Some (current_user w))); [by split; [|left]|].
  destruct (String.eqb (method rq) "GET"); [by split; [|left]|].
  destruct (form rq !! "email"%string) as [email|] eqn:He; [|by split; [|left]].
  destruct (select_by_email (users w) email) as [|user rest] eqn:Hsel;
    [by split; [|left]|].
  destruct (form rq !! "pw"%string) as [pw|] eqn:Hp; [|by split; [|left]].
  destruct (check_password_hash (password user) pw) eqn:Hchk; [|by split; [|left]].
  split; [reflexivity|]. right. exists user, pw.
  pose proof (AuthSpec.select_by_email_head _ _ _ _ Hsel) as Hmail.
  assert (Hin : In user (select_by_email (users w) email)) by (rewrite Hsel; by left).
  apply filter_In in Hin as [Hin _].
  simpl. rewrite Hmail. by repeat split.
Qed.

End LoginExtra.

Lemma login_missing_field_witness :
  fst (login toy_check toy_str
         {| method := "POST"; form := {[ "email"%string := "alice@example.org"%string ]};
            args := ∅; json := None |} anonymous_world)
  = login_page 401.
Proof.
  destruct (login_missing_field toy_check toy_str
              {| method := "POST"; form := {[ "email"%string := "alice@example.org"%string ]};
                 args := ∅; json := None |} anonymous_world) as [key Hkey].
  - reflexivity.
  - discriminate.
  - right. exists "alice@example.org"%string, alice, []. repeat split.
  - rewrite Hkey. reflexivity.
Defined.

End AuthExtra.

(** ** More about the feedback views *)

Module FeedbackExtra.

Import Auth Feedback Examples FeedbackSpec.
Local Open Scope handler_scope.

(** *** Loops that build a list *)

Lemma for_each_fold {A B} (f : B -> A -> B) (h : state -> A -> state)
    (body : A -> B -> M B) :
  (forall x loc s, body x loc s = (Ok (f loc x), h s x)) ->
  forall rows loc s,
    for_each rows body loc s = (Ok (fold_left f rows loc), fold_left h rows s).
Proof.
  intros Hbody. induction rows as [|x rows IH]; intros loc s; simpl; [reflexivity|].
  unfold bind. rewrite Hbody. apply IH.
Qed.

Lemma fold_left_same {A} (s : state) (rows : list A) :
  fold_left (fun s _ => s) rows s = s.
Proof. induction rows; simpl; auto. Qed.

Lemma fold_left_snoc_map {A B} (f : A -> B) (rows : list A) (acc : list B) :
  fold_left (fun acc x => acc ++ [f x]) rows acc = acc ++ map f rows.
Proof.
  revert acc. induction rows as [|x rows IH]; intros acc; simpl.
  - by rewrite app_nil_r.
  - rewrite IH. by rewrite <- app_assoc.
Qed.

Lemma fold_left_picked (rows : list Reservation) (s : state) :
  fold_left
    (fun s r => {| vars := set_hid (res_HotelID r) (set_rno (res_Room_no r) (vars s));
                   db := db s; flashes := flashes s |}) rows s
  = {| vars := picked (vars s) rows; db := db s; flashes := flashes s |}.
Proof.
  revert s. induction rows as [|r rows IH]; intros s; simpl.
  - by destruct s.
  - rewrite IH. reflexivity.
Qed.

Lemma fold_left_last_or {A B} (f : A -> B) (rows : list A) (b : B) :
  fold_left (fun _ x => f x) rows b = from_option f b (last rows).
Proof.
  induction rows as [|x rows IH] using rev_ind; [reflexivity|].
  by rewrite fold_left_app, last_snoc.
Qed.

(** *** pick_res *)

Lemma pick_res_eq role user rq s :
  pick_res role user rq s
  = let inv := requested_invoice rq in
    let own := select_reservations (CID user) inv (db s) in
    (Ok (Rendered "feedback/make_rev.html" (page_ctx role)
           [ map reservation_dict own;
             map service_dict (select_service inv (db s));
             map breakfast_dict (select_breakfast inv (db s)) ] 200),
     {| vars := picked (set_inv_no inv (vars s)) own; db := db s;
        flashes := flashes s |}).
Proof.
  unfold pick_res. fold (requested_invoice rq).
  unfold bind at 1, assign. unfold bind at 1, get_vars. unfold bind at 1, get_db.
  cbn [vars db flashes inv_no set_inv_no].
  unfold bind at 1.
  rewrite (for_each_fold
             (fun acc r => acc ++ [reservation_dict r])
             (fun s r => {| vars := set_hid (res_HotelID r) (set_rno (res_Room_no r) (vars s));
                            db := db s; flashes := flashes s |})) by reflexivity.
  rewrite fold_left_picked, fold_left_snoc_map.
  unfold bind at 1.
  rewrite (for_each_fold (fun acc x => acc ++ [service_dict x]) (fun s _ => s))
    by reflexivity.
  rewrite fold_left_same, fold_left_snoc_map.
  unfold bind at 1.
  rewrite (for_each_fold (fun acc x => acc ++ [breakfast_dict x]) (fun s _ => s))
    by reflexivity.
  rewrite fold_left_same, fold_left_snoc_map.
  reflexivity.
Qed.

Lemma picked_snoc g rows r :
  picked g (rows ++ [r]) = set_hid (res_HotelID r) (set_rno (res_Room_no r) (picked g rows)).
Proof. unfold picked. by rewrite fold_left_app. Qed.

Lemma picked_fields g rows :
  inv_no (picked g rows) = inv_no g
  /\ rrate (picked g rows) = rrate g /\ bfrate (picked g rows) = bfrate g
  /\ srate (picked g rows) = srate g /\ ReviewType (picked g rows) = ReviewType g
  /\ ReviewIDtest (picked g rows) = ReviewIDtest g
  /\ rtype (picked g rows) = rtype g /\ bftype (picked g rows) = bftype g
  /\ stype (picked g rows) = stype g /\ rate (picked g rows) = rate g
  /\ rno (picked g rows) = from_option res_Room_no (rno g) (last rows)
  /\ hid (picked g rows) = from_option res_HotelID (hid g) (last rows).
Proof.
  induction rows as [|r rows IH] using rev_ind.
  - by repeat split.
  - rewrite picked_snoc, last_snoc. simpl. tauto.
Qed.

(** X11. [pick_res] never raises and touches neither the tables nor the
    flashed messages. It stores the [id] of the query string ([None] when
    it is missing) as the selected invoice, and the room and hotel of the
    last reservation of the session user with that invoice; when the
    user has no such reservation, room and hotel stay as they were. The
    ratings, the category and the sub-types are not touched. *)
Theorem pick_res_selects_invoice
    (role : string) (user : User) (rq : request) (s : state) :
  let g := vars s in
  let g' := vars (snd (pick_res role user rq s)) in
  let own := select_reservations (CID user) (requested_invoice rq) (db s) in
  (exists page, fst (pick_res role user rq s) = Ok page)
  /\ db (snd (pick_res role user rq s)) = db s
  /\ flashes (snd (pick_res role user rq s)) = flashes s
  /\ inv_no g' = requested_invoice rq
  /\ rno g' = from_option res_Room_no (rno g) (last own)
  /\ hid g' = from_option res_HotelID (hid g) (last own)
  /\ rrate g' = rrate g /\ bfrate g' = bfrate g /\ srate g' = srate g
  /\ same_choice g g'.
Proof.
  intros g g' own. subst g g' own. rewrite pick_res_eq. cbv zeta. simpl.
  pose proof (picked_fields (set_inv_no (requested_invoice rq) (vars s))
                (select_reservations (CID user) (requested_invoice rq) (db s)))
    as (H1 & H2 & H3 & H4 & H5 & H6 & H7 & H8 & H9 & H10 & H11 & H12).
  simpl in *. unfold same_choice. eauto 20.
Qed.

(** X12. The reservation table [pick_res] renders lists a reservation
    exactly when it is in the reservation table, belongs to the session
    user and carries the requested invoice number. *)
Theorem pick_res_lists_own_reservations
    (role : string) (user : User) (rq : request) (s : state) :
  exists t1 t2 t3,
    fst (pick_res role user rq s)
    = Ok (Rendered "feedback/make_rev.html" (page_ctx role) [t1; t2; t3] 200)
    /\ forall row,
         In row t1 <->
         exists q, In q (reservations (db s))
                   /\ sql_eq (res_CID q) (CID user) = true
                   /\ sql_eq (res_InvoiceNo q) (requested_invoice rq) = true
                   /\ row = reservation_dict q.
Proof.
  rewrite pick_res_eq. cbv zeta. simpl. do 3 eexists. split; [reflexivity|].
  intros row. rewrite in_map_iff. unfold select_reservations. split.
  - intros (q & <- & Hq). apply filter_In in Hq as [Hin Hk].
    apply andb_true_iff in Hk as [Hc Hi]. eauto 10.
  - intros (q & Hin & Hc & Hi & ->). exists q. split; [reflexivity|].
    apply filter_In. split; [exact Hin|]. by rewrite Hc, Hi.
Qed.

(** X13. The service and breakfast tables [pick_res] renders list every
    line item of the requested invoice number, whoever the session user
    is: two users who ask for the same invoice get the same two tables. *)
Theorem pick_res_line_items_for_any_user
    (role : string) (user1 user2 : User) (rq : request) (s : state) :
  exists t1 t1',
    let t2 := map service_dict
                (List.filter (fun x => sql_eq (cs_InvoiceNo x) (requested_invoice rq))
                   (cont_service (db s))) in
    let t3 := map breakfast_dict
                (List.filter (fun x => sql_eq (bf_InvoiceNo x) (requested_invoice rq))
                   (inc_breakfast (db s))) in
    fst (pick_res role user1 rq s)
    = Ok (Rendered "feedback/make_rev.html" (page_ctx role) [t1; t2; t3] 200)
    /\ fst (pick_res role user2 rq s)
       = Ok (Rendered "feedback/make_rev.html" (page_ctx role) [t1'; t2; t3] 200).
Proof.
  rewrite !pick_res_eq. cbv zeta. simpl. do 2 eexists. split; reflexivity.
Qed.

(** *** load_Res *)

Lemma get_reserv_eq role user rq s data RevType :
  json rq = Some data ->
  data !! "RevType"%string = Some RevType ->
  get_reserv role user rq s
  = (Ok (JsonDump (snd (fold_left (reserv_step (db s))
                          (select_reservations_of (CID user) (db s))
                          (PStr "none", [])))), s).
Proof.
  intros Hj Hk. unfold get_reserv, try_except, get_json. rewrite Hj.
  unfold bind at 1, ret at 1. unfold bind at 1, getitem. rewrite Hk. unfold ret at 1.
  unfold bind at 1, get_db. unfold bind at 1.
  rewrite (for_each_fold (reserv_step (db s)) (fun s _ => s)).
  - by rewrite fold_left_same.
  - intros r loc s0. unfold bind at 1.
    rewrite (for_each_fold (fun _ rt => room_Type rt) (fun s _ => s)) by reflexivity.
    by rewrite fold_left_same.
Qed.

Lemma get_reserv_error role user rq s :
  (forall data, json rq = Some data -> data !! "RevType"%string = None) ->
  get_reserv role user rq s = (Ok error_500, s).
Proof.
  intros H. unfold get_reserv, try_except, get_json.
  destruct (json rq) as [data|]; [|reflexivity].
  unfold bind at 1, ret at 1. unfold bind at 1, getitem.
  by rewrite (H data eq_refl).
Qed.

Lemma reserv_rows d own :
  forall t0 acc,
  exists types,
    length types = length own
    /\ snd (fold_left (reserv_step d) own (t0, acc))
       = acc ++ zip_with (fun q t => [res_HotelID q; t; res_Room_no q; res_InvoiceNo q])
                  own types
    /\ forall i q,
         own !! i = Some q ->
         types !! i
         = Some (from_option room_Type
                   (match i with
                    | O => t0
                    | S j => default t0 (types !! j)
                    end)
                   (last (select_rooms_numbered (res_Room_no q) d))).
Proof.
  induction own as [|q own IH]; intros t0 acc.
  - exists []. simpl. split; [reflexivity|]. split; [by rewrite app_nil_r|].
    intros i q0 H. discriminate H.
  - simpl. unfold reserv_step at 2. simpl. rewrite fold_left_last_or.
    set (t1 := from_option room_Type t0 (last (select_rooms_numbered (res_Room_no q) d))).
    destruct (IH t1 (acc ++ [[res_HotelID q; t1; res_Room_no q; res_InvoiceNo q]]))
      as (types & Hlen & Hrows & Htypes).
    exists (t1 :: types). split; [simpl; by rewrite Hlen|].
    split; [rewrite Hrows; simpl; by rewrite <- app_assoc|].
    intros [|i] q0 Hq0; simpl in Hq0.
    + inversion Hq0; subst. reflexivity.
    + simpl. rewrite (Htypes i q0 Hq0). f_equal. f_equal.
      destruct i as [|j]; [reflexivity|]. simpl.
      assert (Hlt : (j < length types)%nat).
      { rewrite Hlen. apply lookup_lt_Some in Hq0. lia. }
      apply lookup_lt_is_Some in Hlt as [t Ht]. by rewrite Ht.
Qed.

(** X14. For a JSON object with the key RevType, [get_reserv] answers
    with one row per reservation of the session user, in table order:
    hotel, room type, room number, invoice. The room type is that of the
    last row of the room table with the reservation's room number, in
    whatever hotel; when the room table has no such row, the row repeats
    the type reported for the reservation before it ("none" for the
    first). The state is left as it was. *)
Theorem get_reserv_rows
    (role : string) (user : User) (rq : request) (s : state)
    (data : gmap string pyval) (RevType : pyval) :
  json rq = Some data ->
  data !! "RevType"%string = Some RevType ->
  let own := List.filter (fun r => sql_eq (res_CID r) (CID user)) (reservations (db s)) in
  exists types,
    length types = length own
    /\ get_reserv role user rq s
       = (Ok (JsonDump (zip_with
                          (fun q t => [res_HotelID q; t; res_Room_no q; res_InvoiceNo q])
                          own types)), s)
    /\ forall i q,
         own !! i = Some q ->
         types !! i
         = Some (from_option room_Type
                   (match i with
                    | O => PStr "none"
                    | S j => default (PStr "none") (types !! j)
                    end)
                   (last (List.filter (fun rm => sql_eq (room_Room_no rm) (res_Room_no q))
                            (rooms (db s))))).
Proof.
  intros Hj Hk own.
  destruct (reserv_rows (db s) own (PStr "none") []) as (types & Hlen & Hrows & Htypes).
  exists types. split; [exact Hlen|]. split; [|exact Htypes].
  rewrite (get_reserv_eq role user rq s data RevType Hj Hk).
  unfold select_reservations_of. fold own. by rewrite Hrows.
Qed.

(** X15. [get_reserv] never raises and never changes the state; it
    answers "Error" with status 500 exactly when the body is not a JSON
    object with the key RevType. *)
Theorem get_reserv_error_iff
    (role : string) (user : User) (rq : request) (s : state) :
  snd (get_reserv role user rq s) = s
  /\ (exists r, fst (get_reserv role user rq s) = Ok r)
  /\ (fst (get_reserv role user rq s) = Ok (Plain "Error" 500)
      <-> forall data, json rq = Some data -> data !! "RevType"%string = None).
Proof.
  destruct (json rq) as [data|] eqn:Hj.
  - destruct (data !! "RevType"%string) as [v|] eqn:Hk.
    + rewrite (get_reserv_eq role user rq s data v Hj Hk). simpl.
      split; [reflexivity|]. split; [eauto|]. split; [discriminate|].
      intros H. specialize (H data eq_refl). congruence.
    + rewrite get_reserv_error by (intros d Hd; congruence).
      split; [reflexivity|]. split; [eauto|]. split; [|reflexivity].
      intros _ d Hd. congruence.
  - rewrite get_reserv_error by (intros d Hd; congruence).
    split; [reflexivity|]. split; [eauto|]. split; [|reflexivity].
    intros _ d Hd. discriminate Hd.
Qed.

(** *** rating *)

Lemma rating_incomplete role rq s :
  complete_payload rq = None ->
  fst (get_rating_and_global role rq s) = Ok error_500
  /\ db (snd (get_rating_and_global role rq s)) = db s
  /\ flashes (snd (get_rating_and_global role rq s)) = flashes s.
Proof.
  unfold complete_payload.
  cbv beta iota zeta delta
    [get_rating_and_global try_except bind get_json getitem ret raise assign].
  destruct (json rq) as [data|]; [|by repeat split].
  destruct (data !! "radioValue"%string); [|by repeat split].
  destruct (data !! "ReviewType"%string) as [RevType|]; [|by repeat split].
  destruct (data !! "rootype"%string); [|
    by destruct (py_eq RevType (PInt 1)), (py_eq RevType (PInt 2)),
      (py_eq RevType (PInt 3))].
  destruct (data !! "breakftype"%string); [|
    by destruct (py_eq RevType (PInt 1)), (py_eq RevType (PInt 2)),
      (py_eq RevType (PInt 3))].
  destruct (data !! "servtype"%string); [discriminate|].
  by destruct (py_eq RevType (PInt 1)), (py_eq RevType (PInt 2)),
       (py_eq RevType (PInt 3)).
Qed.

(** X16. The rating view never raises and touches neither the tables
    nor the flashed messages. A body that is a JSON object with all five
    fields is answered with the JSON text echoing its ReviewType; every
    other body is answered with "Error" and status 500. *)
Theorem rating_answer
    (role : string) (rq : request) (s : state) :
  fst (get_rating_and_global role rq s)
  = Ok (match complete_payload rq with
        | Some RevType => JsonDump [[RevType]]
        | None => Plain "Error" 500
        end)
  /\ db (snd (get_rating_and_global role rq s)) = db s
  /\ flashes (snd (get_rating_and_global role rq s)) = flashes s.
Proof.
  destruct (complete_payload rq) as [RevType|] eqn:Hc.
  - unfold complete_payload in Hc.
    destruct (json rq) as [data|] eqn:Hj; [|discriminate].
    destruct (data !! "radioValue"%string) as [r|] eqn:H1; [|discriminate].
    destruct (data !! "ReviewType"%string) as [v|] eqn:H2; [|discriminate].
    destruct (data !! "rootype"%string) as [a|] eqn:H3; [|discriminate].
    destruct (data !! "breakftype"%string) as [b|] eqn:H4; [|discriminate].
    destruct (data !! "servtype"%string) as [c|] eqn:H5; [|discriminate].
    inversion Hc; subst.
    rewrite (rating_eq role rq s data r RevType a b c) by assumption.
    by repeat split.
  - by apply rating_incomplete.
Qed.

(** X17. The rating view does not undo what it stored before it failed:
    a payload with radioValue and a ReviewType equal to 1 that lacks one
    of the sub-type fields is answered with "Error" and status 500, and
    the room rating is overwritten all the same; the category and the
    sub-types stay as they were. *)
Theorem rating_error_keeps_new_rating
    (role : string) (rq : request) (s : state) (data : gmap string pyval)
    (rate_ RevType : pyval) :
  json rq = Some data ->
  data !! "radioValue"%string = Some rate_ ->
  data !! "ReviewType"%string = Some RevType ->
  py_eq RevType (PInt 1) = true ->
  data !! "rootype"%string = None \/ data !! "breakftype"%string = None
  \/ data !! "servtype"%string = None ->
  fst (get_rating_and_global role rq s) = Ok (Plain "Error" 500)
  /\ rrate (vars (snd (get_rating_and_global role rq s))) = rate_
  /\ rate (vars (snd (get_rating_and_global role rq s))) = Some rate_
  /\ same_choice (vars s) (vars (snd (get_rating_and_global role rq s))).
Proof.
  intros Hj Hr Hv H1 Hmiss.
  cbv beta iota zeta delta
    [get_rating_and_global try_except bind get_json getitem ret raise assign].
  rewrite Hj, Hr, Hv, H1.
  destruct (data !! "rootype"%string) as [a|]; [|by repeat split].
  destruct (data !! "breakftype"%string) as [b|]; [|by repeat split].
  destruct (data !! "servtype"%string) as [c|]; [|by repeat split].
  by destruct Hmiss as [H|[H|H]].
Qed.

Lemma rating_error_keeps_new_rating_witness :
  let rq := {| method := "POST"; form := ∅; args := ∅;
               json := Some (<["radioValue"%string := PInt 5]>
                               {[ "ReviewType"%string := PInt 1 ]}) |} in
  fst (get_rating_and_global "customer" rq fresh_state) = Ok (Plain "Error" 500)
  /\ rrate (vars (snd (get_rating_and_global "customer" rq fresh_state))) = PInt 5.
Proof.
  intros rq.
  destruct (rating_error_keeps_new_rating "customer" rq fresh_state
              (<["radioValue"%string := PInt 5]> {[ "ReviewType"%string := PInt 1 ]})
              (PInt 5) (PInt 1)) as (H1 & H2 & _).
  - reflexivity.
  - reflexivity.
  - reflexivity.
  - reflexivity.
  - left. reflexivity.
  - split; [exact H1 | exact H2].
Defined.

(** X18. Posting the same rating request twice leaves the state the
    first request left, and gets the same answer. *)
Theorem rating_idempotent (role : string) (rq : request) (s : state) :
  get_rating_and_global role rq (snd (get_rating_and_global role rq s))
  = get_rating_and_global role rq s.
Proof.
  cbv beta iota zeta delta
    [get_rating_and_global try_except bind get_json getitem ret raise assign].
  destruct (json rq) as [data|]; [|reflexivity].
  destruct (data !! "radioValue"%string) as [r|]; [|reflexivity].
  destruct (data !! "ReviewType"%string) as [v|]; [|reflexivity].
  destruct (py_eq v (PInt 1)); [|destruct (py_eq v (PInt 2)); [|destruct (py_eq v (PInt 3))]];
    (destruct (data !! "rootype"%string) as [a|]; [|reflexivity]);
    (destruct (data !! "breakftype"%string) as [b|]; [|reflexivity]);
    (destruct (data !! "servtype"%string) as [c|]; reflexivity).
Qed.

(** *** success: every way the view can end *)

Lemma rreview_miss role user rq s :
  is_Some (rtype (vars s)) ->
  ~ ordered user (vars s) (db s)
  \/ (comment_field (vars s) ≫= fun field => form rq !! field) = None ->
  rreview role user rq s
  = (Ok (index_page role),
     {| vars := vars s; db := db s;
        flashes := flashes s ++ [(not_ordered_error, "danger"%string)] |}).
Proof.
  intros Hbound Hmiss. rewrite rreview_eq by exact Hbound.
  destruct Hmiss as [Hno|Hno].
  - rewrite <- line_item_hits_ordered in Hno. by rewrite (tally_no_hit _ _ _ Hno).
  - by rewrite Hno, tally_no_comment.
Qed.

Lemma ordered_dec user g d : ordered user g d \/ ~ ordered user g d.
Proof.
  rewrite <- line_item_hits_ordered.
  destruct (in_dec Bool.bool_dec true (line_item_hits user g d)); auto.
Qed.

Lemma ordered_comment_field user g d :
  ordered user g d -> is_Some (comment_field g).
Proof.
  unfold comment_field. intros [[H _]|[[H _]|[H _]]].
  - rewrite H. eauto.
  - rewrite H, (py_eq_2_1 _ H). eauto.
  - rewrite H, (py_eq_3_1 _ H), (py_eq_3_2 _ H). eauto.
Qed.

Lemma rreview_success_state role user rq s field text :
  is_Some (rtype (vars s)) ->
  ordered user (vars s) (db s) ->
  comment_field (vars s) = Some field ->
  form rq !! field = Some text ->
  let rv := stored_review user s (active_rating (vars s)) (PStr text) in
  exists d',
    rreview role user rq s = (Ok (success_page role), with_db (after_review s rv) d')
    /\ ((py_eq (ReviewType (vars s)) (PInt 1) = true
         /\ d' = with_room_reviews (db (after_review s rv))
                   (room_reviews (db s) ++
                    [ {| rr_ReviewID := ReviewID rv; rr_Room_no := rno (vars s);
                         rr_HotelID := hid (vars s) |} ]))
        \/ (py_eq (ReviewType (vars s)) (PInt 2) = true
            /\ exists t, bftype (vars s) = Some t
               /\ d' = with_breakfast_reviews (db (after_review s rv))
                         (breakfast_reviews (db s) ++
                          [ {| br_ReviewID := ReviewID rv; br_BType := t;
                               br_HotelID := hid (vars s) |} ]))
        \/ (py_eq (ReviewType (vars s)) (PInt 3) = true
            /\ exists t, stype (vars s) = Some t
               /\ d' = with_service_reviews (db (after_review s rv))
                         (service_reviews (db s) ++
                          [ {| sr_ReviewID := ReviewID rv; sr_sType := t;
                               sr_HotelID := hid (vars s) |} ]))).
Proof.
  intros Hbound Hord Hfield Htext rv. subst rv.
  rewrite (rreview_hit role user rq s field text Hbound Hord Hfield Htext).
  unfold bind, stored_review, active_rating.
  destruct Hord as [[H1 _]|[[H2 Hb]|[H3 Hs]]].
  - rewrite (record_review_room user (PStr text) s H1). rewrite H1.
    eexists. split; [reflexivity|]. left. split; reflexivity.
  - rewrite (record_review_breakfast user (PStr text) s H2).
    destruct Hb as (q & food & t & _ & _ & _ & Ht & _). rewrite Ht.
    rewrite H2, (py_eq_2_1 _ H2).
    eexists. split; [reflexivity|]. right. left. split; [reflexivity|].
    exists t. split; reflexivity.
  - rewrite (record_review_service user (PStr text) s H3).
    destruct Hs as (q & ser & t & _ & _ & _ & Ht & _). rewrite Ht.
    rewrite (py_eq_3_1 _ H3), (py_eq_3_2 _ H3).
    eexists. split; [reflexivity|]. right. right. split; [exact H3|].
    exists t. split; reflexivity.
Qed.

(** The three ways the view ends: the NameError of an unbound [rtype],
    the not-ordered message, or a recorded review. *)
Lemma rreview_outcomes role user rq s :
  (rtype (vars s) = None
   /\ rreview role user rq s = (Raise (NameError "rtype"), s))
  \/ (is_Some (rtype (vars s))
      /\ ~ (ordered user (vars s) (db s)
            /\ exists field text,
                 comment_field (vars s) = Some field /\ form rq !! field = Some text)
      /\ rreview role user rq s
         = (Ok (index_page role),
            {| vars := vars s; db := db s;
               flashes := flashes s ++ [(not_ordered_error, "danger"%string)] |}))
  \/ (is_Some (rtype (vars s))
      /\ ordered user (vars s) (db s)
      /\ exists field text,
           comment_field (vars s) = Some field /\ form rq !! field = Some text).
Proof.
  destruct (rtype (vars s)) as [t|] eqn:Hrt.
  2:{ left. split; [reflexivity|]. by apply rreview_unbound. }
  assert (Hbound : is_Some (rtype (vars s))) by (rewrite Hrt; eauto).
  rewrite <- Hrt. right.
  destruct (ordered_dec user (vars s) (db s)) as [Hord|Hno].
  - destruct (ordered_comment_field _ _ _ Hord) as [field Hfield].
    destruct (form rq !! field) as [text|] eqn:Htext.
    + right. rewrite Hrt. split; [eauto|]. split; [exact Hord|]. eauto.
    + left. rewrite Hrt. split; [eauto|]. split.
      * intros (_ & f & tx & Hf & Htx). congruence.
      * apply rreview_miss; [exact Hbound|]. right. by rewrite Hfield.
  - left. rewrite Hrt. split; [eauto|]. split; [tauto|].
    apply rreview_miss; [exact Hbound|]. by left.
Qed.

(** X19. Once the sub-types are stored, the success view answers with
    the success page exactly when the stored sub-type of the active
    category matches a line item of the selected invoice of the session
    user and the form carries the comment field of that category; in
    every other case it answers with the index page. *)
Theorem rreview_success_iff
    (role : string) (user : User) (rq : request) (s : state) :
  is_Some (rtype (vars s)) ->
  (fst (rreview role user rq s) = Ok (success_page role)
   <-> ordered user (vars s) (db s)
       /\ exists field text,
            comment_field (vars s) = Some field /\ form rq !! field = Some text)
  /\ (fst (rreview role user rq s) = Ok (success_page role)
      \/ fst (rreview role user rq s) = Ok (index_page role)).
Proof.
  intros Hbound.
  destruct (rreview_outcomes role user rq s)
    as [[Hrt _]|[(_ & Hno & Hrun)|(_ & Hord & field & text & Hfield & Htext)]].
  - rewrite Hrt in Hbound. destruct Hbound as [? ?]. discriminate.
  - rewrite Hrun. simpl. split; [|by right]. split; [discriminate|].
    intros H. by destruct Hno.
  - destruct (rreview_success_state role user rq s field text Hbound Hord Hfield Htext)
      as (d' & Hrun & _).
    rewrite Hrun. simpl. split; [|by left]. split; [eauto|reflexivity].
Qed.

Lemma rreview_success_iff_witness :
  fst (rreview "customer" alice (post_comment "description2" "great food")
         rated_continental) = Ok (success_page "customer")
  \/ fst (rreview "customer" alice (post_comment "description2" "great food")
            rated_continental) = Ok (index_page "customer").
Proof.
  apply (rreview_success_iff "customer" alice
           (post_comment "description2" "great food") rated_continental).
  eexists. reflexivity.
Defined.

(** X20. No NameError for [bftype] or [stype] and no KeyError for a form
    field leaves the success view, although [bftype] and [stype] are
    read outside every [try] when the link is created: those reads are
    reached only when the names are bound. The one NameError that leaves
    the view is that for [rtype], raised exactly when [rtype] is not
    bound, and then the view has changed nothing. *)
Theorem rreview_name_errors
    (role : string) (user : User) (rq : request) (s : state) :
  ((exists name, fst (rreview role user rq s) = Raise (NameError name))
   <-> rtype (vars s) = None)
  /\ (forall name, fst (rreview role user rq s) = Raise (NameError name) ->
                   name = "rtype"%string /\ snd (rreview role user rq s) = s)
  /\ (forall key, fst (rreview role user rq s) <> Raise (KeyError key)).
Proof.
  destruct (rreview_outcomes role user rq s)
    as [[Hrt Hrun]|[(Hb & _ & Hrun)|(Hb & Hord & field & text & Hfield & Htext)]].
  - rewrite Hrun. simpl. split; [split; eauto|]. split.
    + intros name He. inversion He. by split.
    + intros key He. discriminate He.
  - rewrite Hrun. simpl. split; [|split].
    + split; [intros [e He]; discriminate|].
      intros Hrt. rewrite Hrt in Hb. destruct Hb as [? ?]. discriminate.
    + intros name He. discriminate.
    + intros key He. discriminate.
  - destruct (rreview_success_state role user rq s field text Hb Hord Hfield Htext)
      as (d' & Hrun & _).
    rewrite Hrun. simpl. split; [|split].
    + split; [intros [e He]; discriminate|].
      intros Hrt. rewrite Hrt in Hb. destruct Hb as [? ?]. discriminate.
    + intros name He. discriminate.
    + intros key He. discriminate.
Qed.

(** X21. The success view only ever appends: the reservation, room,
    breakfast and service tables are never touched, at most one Review
    row is appended, and a link row is appended only together with a
    Review row, to one link table. *)
Theorem rreview_appends_at_most_one
    (role : string) (user : User) (rq : request) (s : state) :
  let d := db s in
  let d' := db (snd (rreview role user rq s)) in
  reservations d' = reservations d /\ rooms d' = rooms d
  /\ inc_breakfast d' = inc_breakfast d /\ cont_service d' = cont_service d
  /\ exists new_rev new_rm new_bf new_sv,
       reviews d' = reviews d ++ new_rev
       /\ room_reviews d' = room_reviews d ++ new_rm
       /\ breakfast_reviews d' = breakfast_reviews d ++ new_bf
       /\ service_reviews d' = service_reviews d ++ new_sv
       /\ (length new_rm + length new_bf + length new_sv = length new_rev)%nat
       /\ (length new_rev <= 1)%nat.
Proof.
  intros d d'. subst d d'.
  destruct (rreview_outcomes role user rq s)
    as [[Hrt Hrun]|[(Hb & _ & Hrun)|(Hb & Hord & field & text & Hfield & Htext)]].
  - rewrite Hrun. simpl. repeat split. exists [], [], [], [].
    rewrite !app_nil_r. repeat split. simpl. lia.
  - rewrite Hrun. simpl. repeat split. exists [], [], [], [].
    rewrite !app_nil_r. repeat split. simpl. lia.
  - destruct (rreview_success_state role user rq s field text Hb Hord Hfield Htext)
      as (d' & Hrun & [[_ ->]|[(_ & t & _ & ->)|(_ & t & _ & ->)]]);
      rewrite Hrun; simpl; repeat split.
    + eexists [_], [_], [], []. rewrite !app_nil_r. repeat split. simpl. lia.
    + eexists [_], [], [_], []. rewrite !app_nil_r. repeat split. simpl. lia.
    + eexists [_], [], [], [_]. rewrite !app_nil_r. repeat split. simpl. lia.
Qed.

(** X22. Of the module variables the success view changes none but
    [ReviewIDtest], which it sets to the id of the Review it stored; it
    flashes at most the not-ordered message, and only when it stores
    nothing. *)
Theorem rreview_keeps_variables
    (role : string) (user : User) (rq : request) (s : state) :
  let s' := snd (rreview role user rq s) in
  (vars s' = vars s /\ db s' = db s
   /\ (flashes s' = flashes s
       \/ flashes s' = flashes s ++ [(not_ordered_error, "danger"%string)]))
  \/ (vars s' = set_ReviewIDtest (PInt (largest_id (reviews (db s)) + 1)) (vars s)
      /\ flashes s' = flashes s
      /\ exists rv, reviews (db s') = reviews (db s) ++ [rv]
                    /\ ReviewID rv = ReviewIDtest (vars s')).
Proof.
  intros s'. subst s'.
  destruct (rreview_outcomes role user rq s)
    as [[Hrt Hrun]|[(Hb & _ & Hrun)|(Hb & Hord & field & text & Hfield & Htext)]].
  - rewrite Hrun. left. simpl. auto.
  - rewrite Hrun. left. simpl. auto.
  - destruct (rreview_success_state role user rq s field text Hb Hord Hfield Htext)
      as (d' & Hrun & [[_ ->]|[(_ & t & _ & ->)|(_ & t & _ & ->)]]);
      rewrite Hrun; right; simpl; (split; [reflexivity|]); (split; [reflexivity|]);
      eexists; split; reflexivity.
Qed.

(** *** Submitting twice, and the whole workflow *)

Lemma largest_id_snoc tbl rv :
  largest_id (tbl ++ [rv]) = Z.max (largest_id tbl) (id_value (ReviewID rv)).
Proof.
  induction tbl as [|x tbl IH]; simpl.
  - lia.
  - rewrite IH. lia.
Qed.

Lemma largest_id_nonneg tbl : 0 <= largest_id tbl.
Proof. induction tbl as [|x tbl IH]; simpl; lia. Qed.

(** X23. Submitting the same comment twice is not detected: the second
    submission succeeds as well and appends a second Review row with the
    same rating, comment, customer and invoice and the next id, and the
    link table of the category gets one row for each of the two ids. *)
Theorem rreview_resubmission_duplicates
    (role : string) (user : User) (rq : request) (s : state) (field text : string) :
  is_Some (rtype (vars s)) ->
  ordered user (vars s) (db s) ->
  comment_field (vars s) = Some field ->
  form rq !! field = Some text ->
  let s1 := snd (rreview role user rq s) in
  let s2 := snd (rreview role user rq s1) in
  let n := largest_id (reviews (db s)) in
  let row := fun id => {| ReviewID := PInt id; Rating := active_rating (vars s);
                          TextComment := PStr text; rev_CID := CID user;
                          rev_InvoiceNo := inv_no (vars s) |} in
  fst (rreview role user rq s1) = Ok (success_page role)
  /\ reviews (db s2) = reviews (db s) ++ [row (n + 1); row (n + 2)]
  /\ active_link_ids (vars s) (db s2)
     = active_link_ids (vars s) (db s) ++ [PInt (n + 1); PInt (n + 2)].
Proof.
  intros Hbound Hord Hfield Htext s1 s2 n row. subst s1 s2 n row.
  destruct (rreview_success_state role user rq s field text Hbound Hord Hfield Htext)
    as (d1 & Hrun1 & Hd1).
  rewrite Hrun1. cbn [snd].
  set (rv1 := stored_review user s (active_rating (vars s)) (PStr text)) in *.
  set (s1 := with_db (after_review s rv1) d1).
  assert (Hrev1 : reviews (db s1) = reviews (db s) ++ [rv1])
    by (destruct Hd1 as [[_ ->]|[(_ & t & _ & ->)|(_ & t & _ & ->)]]; reflexivity).
  assert (Hhits : line_item_hits user (vars s1) (db s1)
                  = line_item_hits user (vars s) (db s))
    by (destruct Hd1 as [[_ ->]|[(_ & t & _ & ->)|(_ & t & _ & ->)]]; reflexivity).
  assert (Hbound1 : is_Some (rtype (vars s1))) by exact Hbound.
  assert (Hord1 : ordered user (vars s1) (db s1)).
  { rewrite <- line_item_hits_ordered, Hhits. by rewrite line_item_hits_ordered. }
  assert (Hfield1 : comment_field (vars s1) = Some field) by exact Hfield.
  destruct (rreview_success_state role user rq s1 field text
              Hbound1 Hord1 Hfield1 Htext) as (d2 & Hrun2 & Hd2).
  rewrite Hrun2. cbn [fst snd]. split; [reflexivity|].
  assert (Hn : largest_id (reviews (db s1)) = largest_id (reviews (db s)) + 1).
  { rewrite Hrev1, largest_id_snoc. simpl.
    pose proof (largest_id_nonneg (reviews (db s))). lia. }
  assert (Hn' : largest_id (reviews (db s) ++ [rv1])
                = largest_id (reviews (db s)) + 1) by (rewrite <- Hrev1; exact Hn).
  unfold active_link_ids.
  destruct Hd1 as [[H1 ->]|[(H2 & t & Ht & ->)|(H3 & t & Ht & ->)]];
    destruct Hd2 as [[H1' ->]|[(H2' & t' & Ht' & ->)|(H3' & t' & Ht' & ->)]];
    try (change (ReviewType (vars s1)) with (ReviewType (vars s)) in *; congruence);
    try (pose proof (py_eq_1_2 _ H1); pose proof (py_eq_1_3 _ H1));
    try (pose proof (py_eq_2_1 _ H2); pose proof (py_eq_2_3 _ H2));
    try (pose proof (py_eq_3_1 _ H3); pose proof (py_eq_3_2 _ H3));
    try (change (ReviewType (vars s1)) with (ReviewType (vars s)) in *; congruence).
  - rewrite H1. simpl. unfold stored_review. rewrite Hn. simpl.
    rewrite ?Hn'.
    replace (largest_id (reviews (db s)) + 1 + 1) with (largest_id (reviews (db s)) + 2)
      by lia.
    rewrite ?map_app, <- ?app_assoc. simpl. split; reflexivity.
  - rewrite H2, (py_eq_2_1 _ H2). simpl. unfold stored_review. rewrite Hn. simpl.
    rewrite ?Hn'.
    replace (largest_id (reviews (db s)) + 1 + 1) with (largest_id (reviews (db s)) + 2)
      by lia.
    rewrite ?map_app, <- ?app_assoc. simpl. split; reflexivity.
  - rewrite (py_eq_3_1 _ H3), (py_eq_3_2 _ H3). simpl. unfold stored_review.
    rewrite Hn. simpl.
    rewrite ?Hn'.
    replace (largest_id (reviews (db s)) + 1 + 1) with (largest_id (reviews (db s)) + 2)
      by lia.
    rewrite ?map_app, <- ?app_assoc. simpl. split; reflexivity.
Qed.

(** X24. The room workflow end to end. The session user picks an
    invoice, posts a room rating whose room type is that of the room of
    one of the user's reservations under that invoice, and submits a
    comment: the Review row carries the posted rating, the comment, the
    customer and the picked invoice, and the room link row carries the
    Review's id with the room and hotel of the last reservation of the
    user under that invoice. *)
Theorem room_review_workflow
    (role : string) (user : User) (rq1 rq2 rq3 : request) (s0 : state)
    (invoice text : string) (data : gmap string pyval)
    (rate_ roomtype breaktype servtype : pyval) (q : Reservation) :
  args rq1 !! "id"%string = Some invoice ->
  last (select_reservations (CID user) (PStr invoice) (db s0)) = Some q ->
  json rq2 = Some data ->
  data !! "radioValue"%string = Some rate_ ->
  data !! "ReviewType"%string = Some (PInt 1) ->
  data !! "rootype"%string = Some roomtype ->
  data !! "breakftype"%string = Some breaktype ->
  data !! "servtype"%string = Some servtype ->
  (exists q' rm,
     In q' (select_reservations (CID user) (PStr invoice) (db s0))
     /\ In rm (rooms (db s0))
     /\ sql_eq (room_HotelID rm) (res_HotelID q') = true
     /\ sql_eq (room_Room_no rm) (res_Room_no q') = true
     /\ py_eq (room_Type rm) roomtype = true) ->
  form rq3 !! "description"%string = Some text ->
  let s1 := snd (pick_res role user rq1 s0) in
  let s2 := snd (get_rating_and_global role rq2 s1) in
  let s3 := snd (rreview role user rq3 s2) in
  let id := PInt (largest_id (reviews (db s0)) + 1) in
  fst (rreview role user rq3 s2) = Ok (success_page role)
  /\ reviews (db s3)
     = reviews (db s0) ++
       [ {| ReviewID := id; Rating := rate_; TextComment := PStr text;
            rev_CID := CID user; rev_InvoiceNo := PStr invoice |} ]
  /\ room_reviews (db s3)
     = room_reviews (db s0) ++
       [ {| rr_ReviewID := id; rr_Room_no := res_Room_no q;
            rr_HotelID := res_HotelID q |} ].
Proof.
  intros Hid Hlast Hj Hr Hv Ha Hb Hc (q' & rm & Hq' & Hrm & Hh & Hn & Ht) Htext
    s1 s2 s3 id.
  subst s3 s2 s1 id.
  assert (Hinv : requested_invoice rq1 = PStr invoice)
    by (unfold requested_invoice; by rewrite Hid).
  rewrite pick_res_eq. cbv zeta. rewrite Hinv. cbn [snd].
  set (own := select_reservations (CID user) (PStr invoice) (db s0)) in *.
  set (s1 := {| vars := picked (set_inv_no (PStr invoice) (vars s0)) own;
                db := db s0; flashes := flashes s0 |}).
  rewrite (rating_eq role rq2 s1 data rate_ (PInt 1) roomtype breaktype servtype)
    by assumption.
  cbn [snd py_eq Z.eqb Pos.eqb].
  match goal with
  | |- context [rreview role user rq3 ?s] => set (s2 := s)
  end.
  pose proof (picked_fields (set_inv_no (PStr invoice) (vars s0)) own)
    as (P1 & P2 & P3 & P4 & P5 & P6 & P7 & P8 & P9 & P10 & P11 & P12).
  rewrite Hlast in P11, P12. simpl in P1, P11, P12.
  assert (Hbound : is_Some (rtype (vars s2))) by (simpl; eauto).
  assert (Hord : ordered user (vars s2) (db s2)).
  { left. split; [reflexivity|]. exists q', rm, roomtype.
    apply filter_In in Hq' as [Hin Hk]. apply andb_true_iff in Hk as [Hcid Hi].
    split.
    { split; [exact Hin|]. split; [exact Hcid|]. simpl. rewrite P1. exact Hi. }
    by repeat split. }
  destruct (rreview_success_state role user rq3 s2 "description" text
              Hbound Hord eq_refl Htext) as (d' & Hrun & Hd').
  rewrite Hrun. cbn [fst snd]. split; [reflexivity|].
  destruct Hd' as [[_ ->]|[(H2 & _)|(H3 & _)]]; [|discriminate H2|discriminate H3].
  simpl. unfold stored_review, active_rating. simpl. rewrite P1, P11, P12.
  split; reflexivity.
Qed.

Lemma room_review_workflow_witness :
  let s1 := snd (pick_res "customer" alice (get_pick_res "1") fresh_state) in
  let s2 := snd (get_rating_and_global "customer" post_room_rating s1) in
  let s3 := snd (rreview "customer" alice (post_comment "description" "quiet") s2) in
  reviews (db s3)
  = [ {| ReviewID := PInt 1; Rating := PInt 5; TextComment := PStr "quiet";
         rev_CID := PInt 7; rev_InvoiceNo := PStr "1" |} ]
  /\ room_reviews (db s3)
     = [ {| rr_ReviewID := PInt 1; rr_Room_no := PInt 101; rr_HotelID := PInt 1 |} ].
Proof.
  intros s1 s2 s3.
  destruct (room_review_workflow "customer" alice (get_pick_res "1") post_room_rating
              (post_comment "description" "quiet") fresh_state "1" "quiet"
              room_payload (PInt 5) (PStr "double") (PStr "bno") (PStr "sno")
              {| res_InvoiceNo := PStr "1"; res_ResDate := PStr "2018-04-01";
                 res_OutDate := PStr "2018-04-05"; res_InDate := PStr "2018-04-02";
                 res_Room_no := PInt 101; res_HotelID := PInt 1;
                 res_CNumber := PStr "4111"; res_TotalAmt := PInt 400;
                 res_CID := PInt 7 |})
    as (_ & Hrev & Hlink).
  - reflexivity.
  - reflexivity.
  - reflexivity.
  - reflexivity.
  - reflexivity.
  - reflexivity.
  - reflexivity.
  - reflexivity.
  - eexists _, {| room_HotelID := PInt 1; room_Room_no := PInt 101;
                  room_Type := PStr "double" |}.
    split; [left; reflexivity|]. split; [left; reflexivity|]. by repeat split.
  - reflexivity.
  - split; [exact Hrev | exact Hlink].
Defined.

Lemma rreview_resubmission_duplicates_witness :
  let rq := post_comment "description2" "great food" in
  let s1 := snd (rreview "customer" alice rq rated_continental) in
  let s2 := snd (rreview "customer" alice rq s1) in
  map ReviewID (reviews (db s2)) = [PInt 1; PInt 2]
  /\ map br_ReviewID (breakfast_reviews (db s2)) = [PInt 1; PInt 2].
Proof.
  intros rq s1 s2.
  assert (H1 : is_Some (rtype (vars rated_continental))) by (eexists; reflexivity).
  assert (H2 : ordered alice (vars rated_continental) (db rated_continental)).
  { rewrite <- line_item_hits_ordered. vm_compute. by left. }
  destruct (rreview_resubmission_duplicates "customer" alice rq rated_continental
              "description2" "great food" H1 H2 eq_refl eq_refl)
    as (_ & Hrev & Hlink).
  split.
  - subst s2 s1. rewrite Hrev. reflexivity.
  - exact Hlink.
Defined.

Lemma get_reserv_rows_witness :
  get_reserv "customer" alice post_load_Res two_stays
  = (Ok (JsonDump [ [PInt 1; PStr "double"; PInt 101; PStr "1"];
                    [PInt 2; PStr "double"; PInt 999; PStr "2"] ]), two_stays).
Proof.
  destruct (get_reserv_rows "customer" alice post_load_Res two_stays
              {[ "RevType"%string := PInt 1 ]} (PInt 1) eq_refl eq_refl)
    as (types & Hlen & Hrun & Htypes).
  rewrite Hrun.
  destruct types as [|t1 [|t2 [|t3 types]]]; try discriminate Hlen.
  pose proof (Htypes 0%nat _ eq_refl) as E1. pose proof (Htypes 1%nat _ eq_refl) as E2.
  simpl in E1. inversion E1; subst t1. simpl in E2. inversion E2; subst t2.
  reflexivity.
Defined.

(** *** What every reachable state satisfies *)

(** X25. In every state the handlers reach from a freshly loaded module
    the three sub-types are bound together or not at all, and they are
    bound whenever the active category differs from the value the module
    starts with. *)
Theorem reachable_subtypes_bound_together (g : globals) :
  reachable g ->
  (is_Some (rtype g) <-> is_Some (bftype g))
  /\ (is_Some (rtype g) <-> is_Some (stype g))
  /\ (ReviewType g <> PStr "-1" -> is_Some (rtype g)).
Proof.
  intros Hr. destruct (reachable_subtypes_stored g Hr) as [(H0 & H1 & H2 & H3)|(H1 & H2 & H3)].
  - rewrite H1, H2, H3. repeat split; try (intros [? ?]; discriminate).
    intros Hne. contradiction.
  - repeat split; auto.
Qed.

Lemma reachable_subtypes_bound_together_witness :
  reachable (vars rated_continental)
  /\ is_Some (bftype (vars rated_continental)).
Proof.
  assert (Hr : reachable (vars rated_continental)).
  { apply (reach_rating "customer" (post_rating (PInt 2) (PStr "continental"))
             fresh_state
             (fst (get_rating_and_global "customer"
                     (post_rating (PInt 2) (PStr "continental")) fresh_state))
             rated_continental).
    - apply reach_start.
    - reflexivity. }
  split; [exact Hr|].
  destruct (reachable_subtypes_bound_together _ Hr) as (Hbf & _ & Hne).
  apply Hbf. apply Hne. discriminate.
Defined.

End FeedbackExtra.

(** ** The feedback routes and the user model *)

Module RouteExtra.

Import Auth Feedback Routes Examples.

(** X26. A feedback route answers a client that is anonymous, or whose
    role is none of admin, manager and customer, with the unauthorized
    page; the view behind it does not run, so the module variables, the
    tables and the flashed messages stay as they were. *)
Theorem route_rejects
    (view : string -> User -> request -> M response) (w : world) (rq : request)
    (s : state) :
  (forall user, current_user w = Some user ->
     role user <> "admin"%string /\ role user <> "manager"%string
     /\ role user <> "customer"%string) ->
  route view w rq s = (Ok (Rendered "unauthorized.html" [] [] 401), s).
Proof.
  intros Hrole. unfold route, require_role, login_required, wrapper.
  destruct (current_user w) as [user|]; [|reflexivity].
  destruct (Hrole user eq_refl) as (Ha & Hm & Hc).
  apply String.eqb_neq in Ha, Hm, Hc. simpl. rewrite Ha, Hm, Hc. reflexivity.
Qed.

Lemma route_rejects_witness :
  success_route bob_world (post_comment "description2" "great food") rated_continental
  = (Ok unauth, rated_continental).
Proof.
  apply route_rejects. intros user Hu. inversion Hu; subst.
  repeat split; discriminate.
Defined.

(** X27. A feedback route runs its view for a logged-in admin, manager or
    customer, and hands it the role of that very user. *)
Theorem route_grants
    (view : string -> User -> request -> M response) (w : world) (rq : request)
    (s : state) (user : User) :
  current_user w = Some user ->
  role user = "admin"%string \/ role user = "manager"%string
  \/ role user = "customer"%string ->
  route view w rq s = view (role user) user rq s.
Proof.
  intros Hcu Hrole. unfold route, require_role, login_required, wrapper.
  rewrite Hcu. simpl.
  destruct Hrole as [-> | [-> | ->]]; reflexivity.
Qed.

Lemma route_grants_witness :
  rating_route alice_world (post_rating (PInt 2) (PStr "continental")) fresh_state
  = get_rating_and_global "customer" (post_rating (PInt 2) (PStr "continental"))
      fresh_state.
Proof.
  apply (route_grants (fun role _ rq => get_rating_and_global role rq)
           alice_world (post_rating (PInt 2) (PStr "continental")) fresh_state alice).
  - reflexivity.
  - right. right. reflexivity.
Defined.

End RouteExtra.

Module UserModelExtra.

Import Auth UserModel.

(** X28. [create_user] never gets as far as inserting a row: its body
    reads the names [phone_no] and [address], which are not parameters,
    so every call ends in the NameError for [phone_no], after the
    password was hashed and before [cls.create] is called; the table is
    left as it was. *)
Theorem create_user_raises_name_error
    (generate_password_hash : string -> string)
    (create : gmap string string -> list User -> option user_exn * list User)
    (email password_ name_ role_ : string) (tbl : list User) :
  create_user generate_password_hash create email password_ name_ role_ tbl
  = (Some (UNameError "phone_no"), tbl).
Proof. reflexivity. Qed.

End UserModelExtra.

Module LoginOnClass.

Import Auth UserModel Examples.

Section OnClassSpec.

Variable check_password_hash : string -> string -> bool.
Variable str_exn : exn -> string.

Lemma class_attribute_Email columns :
  class_attribute columns "Email" = inr tt <-> In "Email"%string columns.
Proof.
  unfold class_attribute.
  destruct (existsb (String.eqb "Email") columns) eqn:H.
  - split; [intros _|reflexivity].
    apply existsb_exists in H as (x & Hx & Heq). apply String.eqb_eq in Heq. by subst.
  - split; [discriminate|]. intros Hin.
    assert (existsb (String.eqb "Email") columns = true) as Ht.
    { apply existsb_exists. exists "Email"%string. split; [exact Hin|apply String.eqb_refl]. }
    congruence.
Qed.

(** For a class that declares [Email] the lookup cannot raise, and the
    views are those modelled in [Auth]. *)
Lemma login_on_declared columns rq w :
  In "Email"%string columns ->
  (forall tbl email, user_loader_on columns tbl email = user_loader tbl email)
  /\ login_on columns check_password_hash str_exn rq w
     = login check_password_hash str_exn rq w.
Proof.
  intros Hin. apply class_attribute_Email in Hin.
  assert (Hload : forall tbl email, user_loader_on columns tbl email = user_loader tbl email).
  { intros tbl email. unfold user_loader_on, user_loader, select_where_Email.
    rewrite Hin. by destruct (select_by_email tbl email). }
  split; [exact Hload|].
  unfold login_on, login, current_user_on, current_user, select_where_Email.
  rewrite Hin.
  destruct (session_uid w) as [uid|]; [rewrite Hload|]; reflexivity.
Qed.



(** X4. [user_loader] returns [None] whenever its lookup raises: with
    the class of [models/user.py], which declares [email] and not [Email],
    it returns [None] for every email and every table. For a class that
    declares [Email] it returns the first row whose address is the given
    email, and [None] exactly when no row has it. *)
Theorem user_loader_first_match_or_none
    (columns : list string) (tbl : list User) (email : string) :
  user_loader_on user_columns tbl email = None
  /\ match user_loader_on columns tbl email with
     | Some u =>
         In "Email"%string columns /\ Email u = email
         /\ exists before after,
              tbl = before ++ u :: after /\ Forall (fun v => Email v <> email) before
     | None =>
         ~ In "Email"%string columns \/ Forall (fun v => Email v <> email) tbl
     end.
Proof.
  split; [reflexivity|].
  unfold user_loader_on, select_where_Email.
  destruct (class_attribute columns "Email") as [e|[]] eqn:Hattr.
  - left. intros Hin. apply class_attribute_Email in Hin. congruence.
  - apply class_attribute_Email in Hattr.
    pose proof (AuthExtra.select_by_email_first tbl email) as H.
    destruct (select_by_email tbl email) as [|u rest].
    + by right.
    + destruct H as (Hu & Hsplit). by repeat split.
Qed.

End OnClassSpec.


End LoginOnClass.
